(** * carderInfo-api: the validators, the BIN lookup client and the request
    handler of [index.js], embedded in Rocq.

    JavaScript strings are sequences of UTF-16 code units; they are modelled
    as lists of code units ([N]).  The numbers of the validators are integers
    or NaN; they are modelled as [option Z], with [None] for NaN.  Calls
    whose result the program does not determine (the clock, the upstream
    service, [JSON.parse]) are nodes of a computation tree, answered by an
    environment. *)

From Stdlib Require Import String Ascii ZArith NArith QArith List Bool Lia.
From Stdlib Require Import Numbers.DecimalString.
Import ListNotations.

Set Warnings "-register-all".

Local Open Scope Z_scope.

(* ------------------------------------------------------------------ *)
(** ** Strings *)

Definition code_unit := N.
Definition jsstring := list code_unit.

(** A string literal of the source, written here as a UTF-8 literal, denotes
    the sequence of its UTF-16 code units. *)
Fixpoint js (s : string) : jsstring :=
  match s with
  | EmptyString => []
  | String a r =>
      let b := N_of_ascii a in
      if (b <? 128)%N then b :: js r
      else if (b <? 224)%N then
        match r with
        | String a1 r1 =>
            ((b mod 32) * 64 + N_of_ascii a1 mod 64)%N :: js r1
        | EmptyString => [65533%N]
        end
      else if (b <? 240)%N then
        match r with
        | String a1 (String a2 r2) =>
            ((b mod 16) * 4096 + (N_of_ascii a1 mod 64) * 64
             + N_of_ascii a2 mod 64)%N :: js r2
        | _ => [65533%N]
        end
      else
        match r with
        | String a1 (String a2 (String a3 r3)) =>
            let cp := ((b mod 8) * 262144 + (N_of_ascii a1 mod 64) * 4096
                       + (N_of_ascii a2 mod 64) * 64
                       + N_of_ascii a3 mod 64)%N in
            let off := (cp - 65536)%N in
            (55296 + off / 1024)%N :: (56320 + off mod 1024)%N :: js r3
        | _ => [65533%N]
        end
  end.

(** [a === b] on strings: the same code units. *)
Fixpoint jsstring_eqb (a b : jsstring) : bool :=
  match a, b with
  | [], [] => true
  | x :: a', y :: b' => (x =? y)%N && jsstring_eqb a' b'
  | _, _ => false
  end.

(** [\d] of a regular expression without the unicode-sets flags: 0-9. *)
Definition is_digit (c : code_unit) : bool :=
  ((48 <=? c) && (c <=? 57))%N.

(** [\s] of a regular expression, which is also the white space that
    [parseInt] skips: WhiteSpace and LineTerminator of ECMAScript. *)
Definition is_whitespace (c : code_unit) : bool :=
  (((9 <=? c) && (c <=? 13)) || (c =? 32) || (c =? 160) || (c =? 5760)
   || ((8192 <=? c) && (c <=? 8202)) || (c =? 8232) || (c =? 8233)
   || (c =? 8239) || (c =? 8287) || (c =? 12288) || (c =? 65279))%N.

Definition hyphen : code_unit := 45%N.
Definition plus_sign : code_unit := 43%N.
Definition space : code_unit := 32%N.
Definition slash : code_unit := 47%N.

Definition digit_value (c : code_unit) : Z := Z.of_N c - 48.

(** [s.charAt(i)]: the one-unit string at index [i], the empty string out of
    range. *)
Definition charAt (s : jsstring) (i : nat) : jsstring :=
  match nth_error s i with
  | Some c => [c]
  | None => []
  end.

(* ------------------------------------------------------------------ *)
(** ** Numbers of the validators *)

Definition num := option Z.
Definition NaN : num := None.

Definition num_add (a b : num) : num :=
  match a, b with Some x, Some y => Some (x + y) | _, _ => NaN end.
Definition num_sub (a b : num) : num :=
  match a, b with Some x, Some y => Some (x - y) | _, _ => NaN end.
Definition num_mul (a b : num) : num :=
  match a, b with Some x, Some y => Some (x * y) | _, _ => NaN end.
(** [a % b]: the remainder has the sign of the dividend; NaN when [b] is 0. *)
Definition num_rem (a b : num) : num :=
  match a, b with
  | Some x, Some y => if y =? 0 then NaN else Some (Z.rem x y)
  | _, _ => NaN
  end.
(** Comparisons with NaN are false. *)
Definition num_lt (a b : num) : bool :=
  match a, b with Some x, Some y => x <? y | _, _ => false end.
Definition num_gt (a b : num) : bool := num_lt b a.
Definition num_strict_eq (a b : num) : bool :=
  match a, b with Some x, Some y => x =? y | _, _ => false end.
Definition isNaN (a : num) : bool :=
  match a with Some _ => false | None => true end.

(** The value of a run of decimal digits, most significant first. *)
Definition digits_value (ds : jsstring) : Z :=
  fold_left (fun acc c => 10 * acc + digit_value c) ds 0.

Fixpoint dropWhile {A} (p : A -> bool) (l : list A) : list A :=
  match l with
  | [] => []
  | x :: r => if p x then dropWhile p r else l
  end.

Fixpoint takeWhile {A} (p : A -> bool) (l : list A) : list A :=
  match l with
  | [] => []
  | x :: r => if p x then x :: takeWhile p r else []
  end.

(** [parseInt(s, 10)]: skip leading white space, read an optional sign, then
    the longest run of decimal digits; NaN when that run is empty.  For a
    run too long for a double JavaScript rounds the value; rounding is
    monotone and exact below 2^53, so the comparisons of the validators
    with months and years come out the same on the exact integer. *)
Definition parseInt (s : jsstring) : num :=
  let s1 := dropWhile is_whitespace s in
  let '(sign, s2) :=
    match s1 with
    | c :: r =>
        if (c =? hyphen)%N then (-1, r)
        else if (c =? plus_sign)%N then (1, r)
        else (1, s1)
    | [] => (1, s1)
    end in
  match takeWhile is_digit s2 with
  | [] => NaN
  | ds => Some (sign * digits_value ds)
  end.

(* ------------------------------------------------------------------ *)
(** ** Validator: luhnCheck *)

(** [cardNumber.replace(/\s|-/g, '')] *)
Definition strip_separators (cardNumber : jsstring) : jsstring :=
  filter (fun c => negb (is_whitespace c || (c =? hyphen)%N)) cardNumber.

(** [/^\d+$/.test(s)] *)
Definition only_digits (s : jsstring) : bool :=
  match s with
  | [] => false
  | _ => forallb is_digit s
  end.

(** The body of the [for] loop, from index [n - 1] down to 0. *)
Fixpoint luhn_loop (cleaned : jsstring) (n : nat) (sum : num) (double : bool)
  : num :=
  match n with
  | O => sum
  | S i =>
      let digit := parseInt (charAt cleaned i) in
      let digit :=
        if double then
          let digit := num_mul digit (Some 2) in
          if num_gt digit (Some 9) then num_sub digit (Some 9) else digit
        else digit in
      luhn_loop cleaned i (num_add sum digit) (negb double)
  end.

Definition luhnCheck (cardNumber : jsstring) : bool :=
  let cleanedCardNumber := strip_separators cardNumber in
  if negb (only_digits cleanedCardNumber) then false
  else
    let sum :=
      luhn_loop cleanedCardNumber (List.length cleanedCardNumber) (Some 0) false in
    num_strict_eq (num_rem sum (Some 10)) (Some 0).

(** *** The checksum as the specification words it *)

(** A doubled digit, less 9 when it exceeds 9. *)
Definition doubled (d : Z) : Z :=
  let x := 2 * d in if 9 <? x then x - 9 else x.

(** The sum over the digits in the order of traversal; [second] tells whether
    the digit at the head is a "second" one, to be doubled. *)
Fixpoint weighted_sum (second : bool) (ds : list Z) : Z :=
  match ds with
  | [] => 0
  | d :: r => (if second then doubled d else d) + weighted_sum (negb second) r
  end.

(** The mod-10 double-every-second-digit sum of a digit string: digits are
    traversed right to left and the second, fourth, ... of them doubled. *)
Definition mod10_sum (S : jsstring) : Z :=
  weighted_sum false (rev (map digit_value S)).

Definition digit_string (S : jsstring) : Prop :=
  forallb is_digit S = true.

(** The algorithm of the specification, word for word: strip spaces and
    hyphens; a remaining non-digit makes the result invalid; otherwise the
    sum decides. *)
Definition checksum_as_specified (cardNumber : jsstring) : bool :=
  let stripped :=
    filter (fun c => negb ((c =? space) || (c =? hyphen))%N) cardNumber in
  if existsb (fun c => negb (is_digit c)) stripped then false
  else mod10_sum stripped mod 10 =? 0.

(** The same rule with all white space stripped, not only spaces, and with
    at least one digit demanded. *)
Definition checksum_rule (cardNumber : jsstring) : bool :=
  let stripped :=
    filter (fun c => negb (is_whitespace c || (c =? hyphen)%N)) cardNumber in
  match stripped with
  | [] => false
  | _ =>
      if existsb (fun c => negb (is_digit c)) stripped then false
      else mod10_sum stripped mod 10 =? 0
  end.

(** *** The expiry rule as the specification words it *)

(** The resolved year: 2000 + year for a two-character year string, the
    parsed year otherwise. *)
Definition resolved_year (year : jsstring) : num :=
  match parseInt year with
  | Some y => Some (if (List.length year =? 2)%nat then 2000 + y else y)
  | None => NaN
  end.

(** The stricter reading of "has 2 digits": exactly two characters, both
    of them digits. *)
Definition two_digits (year : jsstring) : bool :=
  match year with
  | [a; b] => is_digit a && is_digit b
  | _ => false
  end.

Definition resolved_year_strict (year : jsstring) : num :=
  match parseInt year with
  | Some y => Some (if two_digits year then 2000 + y else y)
  | None => NaN
  end.

(* ------------------------------------------------------------------ *)
(** ** Library calls whose results come from the environment

    The handler reads the clock, sends one HTTPS request, parses its body
    with [JSON.parse] and writes to the error console.  A computation is a
    tree of such calls; [run] executes it in an environment and records the
    calls made. *)

(** What [new Date()] is asked for. *)
Record Date := { getFullYear : Z; getMonth : Z }.

(** How the request of [lookupBin] ends: the response's ['end'] event with
    the status code and the accumulated body, or the request's ['error']
    event with the error's message. *)
Inductive upstream :=
| UpstreamResponse (statusCode : Z) (data : jsstring)
| UpstreamFailure (message : jsstring).

(** Numbers inside JSON data: any double. *)
Inductive jsnumber :=
| Finite (q : Q)
| Infinite (negative : bool)
| NotANumber.

Inductive value :=
| VUndefined
| VNull
| VBool (b : bool)
| VNum (n : jsnumber)
| VStr (s : jsstring)
| VArr (elements : list value)
| VObj (properties : list (jsstring * value)).

Inductive parsed :=
| Parsed (v : value)
| SyntaxError (message : jsstring).

(** The object a rejected lookup carries: [{error, status?, details?}]. *)
Record rejection := {
  error : jsstring;
  e_status : option Z;
  details : option jsstring
}.

(** What the [catch] clause of the handler can receive. *)
Inductive thrown :=
| ThrownRejection (e : rejection)
| ThrownTypeError.

Inductive prog (A : Type) : Type :=
| Ret (a : A)
| NewDate (k : Date -> prog A)
| HttpsRequest (hostname path : jsstring) (k : upstream -> prog A)
| JSONparse (text : jsstring) (k : parsed -> prog A)
| ConsoleError (e : thrown) (k : prog A).

Arguments Ret {A} a.
Arguments NewDate {A} k.
Arguments HttpsRequest {A} hostname path k.
Arguments JSONparse {A} text k.
Arguments ConsoleError {A} e k.

Fixpoint bind {A B} (p : prog A) (f : A -> prog B) : prog B :=
  match p with
  | Ret a => f a
  | NewDate k => NewDate (fun d => bind (k d) f)
  | HttpsRequest h pa k => HttpsRequest h pa (fun u => bind (k u) f)
  | JSONparse t k => JSONparse t (fun r => bind (k r) f)
  | ConsoleError e k => ConsoleError e (bind k f)
  end.

Declare Scope prog_scope.
Delimit Scope prog_scope with prog.
Notation "x <- p ;; q" := (bind p (fun x => q))
  (at level 61, p at next level, right associativity) : prog_scope.

Record env := {
  clock : nat -> Date;
  network : jsstring -> jsstring -> upstream;
  JSON_parse : jsstring -> parsed
}.

Inductive event :=
| EvNewDate
| EvHttpsRequest (hostname path : jsstring)
| EvJSONparse (text : jsstring)
| EvConsoleError (e : thrown).

(** [run E p t]: the result of [p] and the calls it makes, when [t] clock
    reads have gone before. *)
Fixpoint run {A} (E : env) (p : prog A) (t : nat) : A * list event :=
  match p with
  | Ret a => (a, [])
  | NewDate k =>
      let r := run E (k (clock E t)) (S t) in (fst r, EvNewDate :: snd r)
  | HttpsRequest h pa k =>
      let r := run E (k (network E h pa)) t in
      (fst r, EvHttpsRequest h pa :: snd r)
  | JSONparse txt k =>
      let r := run E (k (JSON_parse E txt)) t in
      (fst r, EvJSONparse txt :: snd r)
  | ConsoleError e k =>
      let r := run E k t in (fst r, EvConsoleError e :: snd r)
  end.

Definition is_request (ev : event) : bool :=
  match ev with EvHttpsRequest _ _ => true | _ => false end.

(** The outbound requests among the calls of a trace. *)
Definition outbound (tr : list event) : list event := filter is_request tr.

(* ------------------------------------------------------------------ *)
(** ** Validator: isExpiryValid *)

(** The function once [currentYear] and [currentMonth] are known. *)
Definition isExpiryValid_at (currentYear currentMonth : Z)
    (month year : jsstring) : bool :=
  let fullYear :=
    if (List.length year =? 2)%nat
    then num_add (Some 2000) (parseInt year)
    else parseInt year in
  let monthInt := parseInt month in
  if isNaN monthInt || isNaN fullYear
     || num_lt monthInt (Some 1) || num_gt monthInt (Some 12)
  then false
  else if num_lt fullYear (Some currentYear) then false
  else if num_strict_eq fullYear (Some currentYear)
          && num_lt monthInt (Some currentMonth)
  then false
  else true.

Definition isExpiryValid (month year : jsstring) : prog bool :=
  NewDate (fun d1 =>
  NewDate (fun d2 =>
    let currentYear := getFullYear d1 in
    let currentMonth := getMonth d2 + 1 in
    Ret (isExpiryValid_at currentYear currentMonth month year))).

(* ------------------------------------------------------------------ *)
(** ** BIN lookup client *)

Inductive settled :=
| Resolved (v : value)
| Rejected (e : rejection).

(** A status code inside a template literal. *)
Definition number_to_string (z : Z) : jsstring :=
  js (NilZero.string_of_int (Z.to_int z)).

Definition lookupBin (bin : jsstring) : prog settled :=
  HttpsRequest (js "lookup.binlist.net") (js "/" ++ bin) (fun res =>
    match res with
    | UpstreamResponse statusCode data =>
        if statusCode =? 200 then
          JSONparse data (fun r =>
            match r with
            | Parsed v => Ret (Resolved v)
            | SyntaxError m =>
                Ret (Rejected
                  {| error := js "Erro ao analisar a resposta da BIN List";
                     e_status := None;
                     details := Some m |})
            end)
        else if statusCode =? 404 then
          Ret (Rejected
            {| error := js "BIN não encontrado na base de dados.";
               e_status := Some 404;
               details := None |})
        else
          Ret (Rejected
            {| error := js "Erro na consulta à BIN List: Status "
                        ++ number_to_string statusCode;
               e_status := None;
               details := Some data |})
    | UpstreamFailure m =>
        Ret (Rejected
          {| error := js "Erro na requisição HTTP para a BIN List";
             e_status := None;
             details := Some m |})
    end).

(* ------------------------------------------------------------------ *)
(** ** Values: property access, truthiness, serialization *)

(** An expression either completes with a value or throws. *)
Inductive completion (A : Type) : Type :=
| Normal (a : A)
| Throw (e : thrown).

Arguments Normal {A} a.
Arguments Throw {A} e.

Definition cbind {A B} (c : completion A) (f : A -> completion B)
  : completion B :=
  match c with
  | Normal a => f a
  | Throw e => Throw e
  end.

Declare Scope completion_scope.
Delimit Scope completion_scope with completion.
Notation "x <- c ;; d" := (cbind c (fun x => d))
  (at level 61, c at next level, right associativity) : completion_scope.

Fixpoint lookup (k : jsstring) (ps : list (jsstring * value)) : value :=
  match ps with
  | [] => VUndefined
  | (k', v) :: r => if jsstring_eqb k k' then v else lookup k r
  end.

Definition of_nat (n : nat) : value := VNum (Finite (inject_Z (Z.of_nat n))).

(** [v.k] for the property names the handler reads: none of them is
    inherited from a prototype, and [length] is the only one a string or an
    array has of its own.  Reading a property of [null] or [undefined]
    throws a TypeError. *)
Definition get (v : value) (k : jsstring) : completion value :=
  match v with
  | VUndefined | VNull => Throw ThrownTypeError
  | VObj ps => Normal (lookup k ps)
  | VStr s =>
      Normal (if jsstring_eqb k (js "length") then of_nat (List.length s)
              else VUndefined)
  | VArr l =>
      Normal (if jsstring_eqb k (js "length") then of_nat (List.length l)
              else VUndefined)
  | VBool _ | VNum _ => Normal VUndefined
  end.

Definition truthy (v : value) : bool :=
  match v with
  | VUndefined | VNull => false
  | VBool b => b
  | VNum (Finite q) => negb (Qeq_bool q 0)
  | VNum (Infinite _) => true
  | VNum NotANumber => false
  | VStr s => negb (jsstring_eqb s [])
  | VArr _ | VObj _ => true
  end.

(** [a || b] *)
Definition or_else (a b : value) : value := if truthy a then a else b.

(** [v === true] *)
Definition is_true (v : value) : bool :=
  match v with VBool true => true | _ => false end.

(** The data [JSON.stringify] writes for a value: a property whose value is
    [undefined] is left out of its object, [undefined] in an array and a
    number that is not finite are written as [null]. *)
Fixpoint written (v : value) : value :=
  match v with
  | VObj ps =>
      VObj ((fix props (ps : list (jsstring * value)) :=
               match ps with
               | [] => []
               | (k, VUndefined) :: r => props r
               | (k, x) :: r => (k, written x) :: props r
               end) ps)
  | VArr l =>
      VArr (map (fun x => match x with
                          | VUndefined => VNull
                          | _ => written x
                          end) l)
  | VNum (Infinite _) | VNum NotANumber => VNull
  | _ => v
  end.

(** Whether an object has a property of its own. *)
Fixpoint has_key (k : jsstring) (ps : list (jsstring * value)) : bool :=
  match ps with
  | [] => false
  | (k', _) :: r => jsstring_eqb k k' || has_key k r
  end.

(** Following a path of property names into written data; [None] when a
    property on the way is not there. *)
Fixpoint at_path (path : list jsstring) (v : value) : option value :=
  match path with
  | [] => Some v
  | k :: rest =>
      match v with
      | VObj ps => if has_key k ps then at_path rest (lookup k ps) else None
      | _ => None
      end
  end.

(* ------------------------------------------------------------------ *)
(** ** Request handler *)

Record metadata_t := {
  author : jsstring;
  contact : jsstring;
  version : jsstring
}.

Definition API_METADATA : metadata_t := {|
  author := js "Sam";
  contact := js "t.me/samblackhat";
  version := js "1.0.1-enriched"
|}.

Record request_t := {
  bin : jsstring;
  cardNumber : jsstring;
  expiryMonth : jsstring;
  expiryYear : jsstring
}.

(** [validation] starts as the empty object; a property not yet set is
    [None]. *)
Record validation_t := {
  luhn_valid : option bool;
  expiry_valid : option bool
}.

Record response_t := {
  metadata : metadata_t;
  request : request_t;
  validation : validation_t;
  card_info : value;
  status : jsstring;
  message : jsstring
}.

Definition set_luhn_valid (r : response_t) (b : bool) : response_t :=
  {| metadata := metadata r; request := request r;
     validation := {| luhn_valid := Some b;
                      expiry_valid := expiry_valid (validation r) |};
     card_info := card_info r; status := status r; message := message r |}.

Definition set_expiry_valid (r : response_t) (b : bool) : response_t :=
  {| metadata := metadata r; request := request r;
     validation := {| luhn_valid := luhn_valid (validation r);
                      expiry_valid := Some b |};
     card_info := card_info r; status := status r; message := message r |}.

Definition set_card_info (r : response_t) (v : value) : response_t :=
  {| metadata := metadata r; request := request r;
     validation := validation r;
     card_info := v; status := status r; message := message r |}.

Definition set_status (r : response_t) (s : jsstring) : response_t :=
  {| metadata := metadata r; request := request r;
     validation := validation r;
     card_info := card_info r; status := s; message := message r |}.

Definition set_message (r : response_t) (m : jsstring) : response_t :=
  {| metadata := metadata r; request := request r;
     validation := validation r;
     card_info := card_info r; status := status r; message := m |}.

(** [!response.validation.x] *)
Definition not_set_true (o : option bool) : bool :=
  match o with Some true => false | _ => true end.

(** The two bodies the server writes: the response object, or the usage
    hint [{status, message, example}]. *)
Inductive body :=
| ResponseBody (r : response_t)
| UsageHint (hint_status hint_message example : jsstring).

Record http_response := {
  code : Z;
  content : body
}.

Record IncomingMessage := {
  method : jsstring;
  pathname : jsstring
}.

(** [s.split(sep)] for a one-unit separator. *)
Fixpoint split (sep : code_unit) (s : jsstring) : list jsstring :=
  match s with
  | [] => [[]]
  | c :: r =>
      if (c =? sep)%N then [] :: split sep r
      else
        match split sep r with
        | seg :: segs => (c :: seg) :: segs
        | [] => [[c]]
        end
  end.

(** [l.join(sep)], the inverse of [split]. *)
Fixpoint join (sep : code_unit) (l : list jsstring) : jsstring :=
  match l with
  | [] => []
  | [s] => s
  | s :: r => s ++ sep :: join sep r
  end.

Definition path_segments (path : jsstring) : list jsstring :=
  filter (fun segment => (0 <? List.length segment)%nat) (split slash path).

Definition NA : value := VStr (js "N/A").
Definition Sim : value := VStr (js "Sim").
Definition Nao : value := VStr (js "Não").

(** [binData.parent ? binData.parent.child : 'N/A'] *)
Definition guarded (binData : value) (parent child : string)
  : completion value :=
  (p <- get binData (js parent) ;;
   if truthy p then
     p' <- get binData (js parent) ;;
     get p' (js child)
   else Normal NA)%completion.

(** The object literal assigned to [response.card_info]; its property
    values are evaluated in source order. *)
Definition card_info_of (binData : value) : completion value :=
  (scheme <- get binData (js "scheme") ;;
   brand <- get binData (js "brand") ;;
   type <- get binData (js "type") ;;
   prepaid <- get binData (js "prepaid") ;;
   length <- guarded binData "number" "length" ;;
   luhn_check_status <-
     (n <- get binData (js "number") ;;
      if truthy n then
        n' <- get binData (js "number") ;;
        luhn <- get n' (js "luhn") ;;
        Normal (if truthy luhn then Sim else Nao)
      else Normal NA) ;;
   c_name <- guarded binData "country" "name" ;;
   alpha2 <- guarded binData "country" "alpha2" ;;
   numeric <- guarded binData "country" "numeric" ;;
   currency <- guarded binData "country" "currency" ;;
   emoji <- guarded binData "country" "emoji" ;;
   latitude <- guarded binData "country" "latitude" ;;
   longitude <- guarded binData "country" "longitude" ;;
   b_name <- guarded binData "bank" "name" ;;
   url <- guarded binData "bank" "url" ;;
   phone_sac <- guarded binData "bank" "phone" ;;
   city <- guarded binData "bank" "city" ;;
   Normal (VObj [
     (js "scheme", or_else scheme NA);
     (js "brand", or_else brand NA);
     (js "type", or_else type NA);
     (js "prepaid", if is_true prepaid then Sim else Nao);
     (js "number_details", VObj [
        (js "length", length);
        (js "luhn_check_status", luhn_check_status)]);
     (js "country", VObj [
        (js "name", c_name);
        (js "alpha2", alpha2);
        (js "numeric", numeric);
        (js "currency", currency);
        (js "emoji", emoji);
        (js "coordinates", VObj [
           (js "latitude", latitude);
           (js "longitude", longitude)])]);
     (js "bank", VObj [
        (js "name", b_name);
        (js "url", url);
        (js "phone_sac", phone_sac);
        (js "city", city)])]))%completion.

(** [e.error] and [e.status] of what was caught; a TypeError has
    neither. *)
Definition thrown_error (e : thrown) : option jsstring :=
  match e with
  | ThrownRejection r => Some (error r)
  | ThrownTypeError => None
  end.

Definition thrown_status (e : thrown) : option Z :=
  match e with
  | ThrownRejection r => e_status r
  | ThrownTypeError => None
  end.

(** The [catch] clause. *)
Definition on_catch (response : response_t) (e : thrown)
  : prog http_response :=
  let response :=
    set_message response
      match thrown_error e with
      | Some ((_ :: _) as m) => m
      | _ => js "Erro interno do servidor durante a consulta externa."
      end in
  let statusCode :=
    match thrown_status e with
    | Some s => if s =? 0 then 500 else s
    | None => 500
    end in
  ConsoleError e
    (Ret {| code := statusCode; content := ResponseBody response |}).

Definition not_found : http_response := {|
  code := 404;
  content :=
    UsageHint (js "error")
      (js "Endpoint não encontrado. Use o formato: /cardinfo/:bin/:card_number/:expiry_month/:expiry_year")
      (js "/cardinfo/457173/4571736000000000/12/28")
|}.

(** The route test of the handler. *)
Definition is_card_query (req : IncomingMessage) : bool :=
  let pathSegments := path_segments (pathname req) in
  jsstring_eqb (method req) (js "GET")
  && match nth_error pathSegments 0 with
     | Some s => jsstring_eqb s (js "cardinfo")
     | None => false
     end
  && (List.length pathSegments =? 5)%nat.

(** The branch of the handler for a card query, with the four path
    parameters destructured from [pathSegments]. *)
Definition card_query (bin cardNumber expiryMonth expiryYear : jsstring)
  : prog http_response :=
  let response := {|
    metadata := API_METADATA;
    request := {| bin := bin; cardNumber := cardNumber;
                  expiryMonth := expiryMonth; expiryYear := expiryYear |};
    validation := {| luhn_valid := None; expiry_valid := None |};
    card_info := VNull;
    status := js "error";
    message := js "Processamento iniciado."
  |} in
  let response := set_luhn_valid response (luhnCheck cardNumber) in
  (expiry <- isExpiryValid expiryMonth expiryYear ;;
   let response := set_expiry_valid response expiry in
   if not_set_true (luhn_valid (validation response)) then
     let response :=
       set_message response
         (js "Falha na validação estrutural do número do cartão (Algoritmo de Luhn).") in
     Ret {| code := 400; content := ResponseBody response |}
   else if not_set_true (expiry_valid (validation response)) then
     let response :=
       set_message response
         (js "Falha na validação da data de expiração (cartão expirado ou data inválida).") in
     Ret {| code := 400; content := ResponseBody response |}
   else
     settled <- lookupBin bin ;;
     match settled with
     | Resolved binData =>
         let response := set_status response (js "success") in
         let response :=
           set_message response
             (js "Validação e consulta concluídas com sucesso.") in
         match card_info_of binData with
         | Normal info =>
             let response := set_card_info response info in
             Ret {| code := 200; content := ResponseBody response |}
         | Throw e => on_catch response e
         end
     | Rejected e => on_catch response (ThrownRejection e)
     end)%prog.

Definition server (req : IncomingMessage) : prog http_response :=
  let pathSegments := path_segments (pathname req) in
  if is_card_query req then
    card_query (nth 1 pathSegments []) (nth 2 pathSegments [])
               (nth 3 pathSegments []) (nth 4 pathSegments [])
  else Ret not_found.

(* ------------------------------------------------------------------ *)
(** ** Sample data *)

(** November 2026 on every read of the clock. *)
Definition november_2026 : nat -> Date :=
  fun _ => {| getFullYear := 2026; getMonth := 10 |}.

Definition example_path : jsstring :=
  js "/cardinfo/457173/4571736000000000/12/28".

Definition get_request : IncomingMessage :=
  {| method := js "GET"; pathname := example_path |}.

Definition post_request : IncomingMessage :=
  {| method := js "POST"; pathname := example_path |}.

Definition bad_number_request : IncomingMessage :=
  {| method := js "GET";
     pathname := js "/cardinfo/457173/4571736000000001/12/28" |}.

(** The upstream service answers 200 with the body [null], which is valid
    JSON. *)
Definition null_body_env : env := {|
  clock := november_2026;
  network := fun _ _ => UpstreamResponse 200 (js "null");
  JSON_parse := fun text =>
    if jsstring_eqb text (js "null") then Parsed VNull
    else SyntaxError (js "Unexpected token")
|}.

(** The upstream service does not know the BIN. *)
Definition unknown_bin_env : env := {|
  clock := november_2026;
  network := fun _ _ => UpstreamResponse 404 [];
  JSON_parse := fun _ => SyntaxError (js "Unexpected end of JSON input")
|}.

(** The upstream data behind the sample response of the README. *)
Definition jyske_bank : value := VObj [
  (js "number", VObj [(js "length", of_nat 16); (js "luhn", VBool true)]);
  (js "scheme", VStr (js "visa"));
  (js "type", VStr (js "debit"));
  (js "brand", VStr (js "Visa Classic/Dankort"));
  (js "prepaid", VBool false);
  (js "country", VObj [
     (js "numeric", VStr (js "208"));
     (js "alpha2", VStr (js "DK"));
     (js "name", VStr (js "Denmark"));
     (js "emoji", VStr (js "🇩🇰"));
     (js "currency", VStr (js "DKK"));
     (js "latitude", of_nat 56);
     (js "longitude", of_nat 10)]);
  (js "bank", VObj [
     (js "name", VStr (js "Jyske Bank A/S"));
     (js "url", VStr (js "www.jyskebank.dk"));
     (js "phone", VStr (js "+4589893300"));
     (js "city", VStr (js "Hjørring"))])].

(** The upstream service knows the BIN; the text of its body is left
    abstract and parses to [jyske_bank]. *)
Definition known_bin_env : env := {|
  clock := november_2026;
  network := fun _ _ => UpstreamResponse 200 (js "{...}");
  JSON_parse := fun _ => Parsed jyske_bank
|}.

(** Upstream data with a country object that names nothing. *)
Definition empty_country : value := VObj [(js "country", VObj [])].

(** The response object once both validation results are stored. *)
Definition validated (b c m y : jsstring) (luhn expiry : bool)
  : response_t := {|
  metadata := API_METADATA;
  request := {| bin := b; cardNumber := c;
                expiryMonth := m; expiryYear := y |};
  validation := {| luhn_valid := Some luhn; expiry_valid := Some expiry |};
  card_info := VNull;
  status := js "error";
  message := js "Processamento iniciado."
|}.

(** The response object once the lookup has resolved. *)
Definition looked_up (b c m y : jsstring) : response_t :=
  set_message (set_status (validated b c m y true true) (js "success"))
    (js "Validação e consulta concluídas com sucesso.").

Definition binlist_host : jsstring := js "lookup.binlist.net".

(** The outbound request of a lookup, as a call of the trace. *)
Definition lookup_event (b : jsstring) : event :=
  EvHttpsRequest binlist_host (js "/" ++ b).

(** What [isExpiryValid] returns when [t] clock reads have gone before. *)
Definition expiry_at (E : env) (t : nat) (month year : jsstring) : bool :=
  isExpiryValid_at (getFullYear (clock E t))
    (getMonth (clock E (S t)) + 1) month year.

(** *** Reading without exceptions *)

Definition nullish (v : value) : bool :=
  match v with VUndefined | VNull => true | _ => false end.

(** [v.k] where it cannot throw. *)
Definition prop (v : value) (k : jsstring) : value :=
  match get v k with
  | Normal x => x
  | Throw _ => VUndefined
  end.

Definition guarded_value (binData : value) (parent child : string) : value :=
  if truthy (prop binData (js parent))
  then prop (prop binData (js parent)) (js child)
  else NA.

(** The value of the object literal when [binData] is neither [null] nor
    [undefined]. *)
Definition card_info_value (binData : value) : value :=
  VObj [
    (js "scheme", or_else (prop binData (js "scheme")) NA);
    (js "brand", or_else (prop binData (js "brand")) NA);
    (js "type", or_else (prop binData (js "type")) NA);
    (js "prepaid",
     if is_true (prop binData (js "prepaid")) then Sim else Nao);
    (js "number_details", VObj [
       (js "length", guarded_value binData "number" "length");
       (js "luhn_check_status",
        if truthy (prop binData (js "number"))
        then if truthy (prop (prop binData (js "number")) (js "luhn"))
             then Sim else Nao
        else NA)]);
    (js "country", VObj [
       (js "name", guarded_value binData "country" "name");
       (js "alpha2", guarded_value binData "country" "alpha2");
       (js "numeric", guarded_value binData "country" "numeric");
       (js "currency", guarded_value binData "country" "currency");
       (js "emoji", guarded_value binData "country" "emoji");
       (js "coordinates", VObj [
          (js "latitude", guarded_value binData "country" "latitude");
          (js "longitude", guarded_value binData "country" "longitude")])]);
    (js "bank", VObj [
       (js "name", guarded_value binData "bank" "name");
       (js "url", guarded_value binData "bank" "url");
       (js "phone_sac", guarded_value binData "bank" "phone");
       (js "city", guarded_value binData "bank" "city")])].

(** What the written response shows at a path of [card_info], for upstream
    data [binData]. *)
Definition written_card_info (binData : value) (path : list string)
  : option value :=
  match card_info_of binData with
  | Normal info => at_path (map js path) (written info)
  | Throw _ => None
  end.

(** A clock read just before and just after New Year: December 2026, then
    January 2027. *)
Definition new_year_clock : nat -> Date :=
  fun t =>
    match t with
    | O => {| getFullYear := 2026; getMonth := 11 |}
    | _ => {| getFullYear := 2027; getMonth := 0 |}
    end.

Definition new_year_env : env := {|
  clock := new_year_clock;
  network := fun _ _ => UpstreamFailure (js "getaddrinfo ENOTFOUND");
  JSON_parse := fun _ => SyntaxError (js "Unexpected end of JSON input")
|}.

(** The upstream service is down. *)
Definition unreachable_env : env := {|
  clock := november_2026;
  network := fun _ _ => UpstreamFailure (js "connect ECONNREFUSED");
  JSON_parse := fun _ => SyntaxError (js "Unexpected end of JSON input")
|}.

(** Whether a call of the trace is a write to the error console. *)
Definition is_console_error (ev : event) : bool :=
  match ev with EvConsoleError _ => true | _ => false end.



(* ================================================================== *)
(** * Properties *)

(** ** Strings and character classes *)

Lemma jsstring_eqb_eq (a b : jsstring) : jsstring_eqb a b = true <-> a = b.
Proof.
  revert b; induction a as [|x a IH]; intros [|y b]; simpl;
    try (split; [discriminate | discriminate]); try tauto.
  rewrite andb_true_iff, N.eqb_eq, IH.
  split; [intros [-> ->]; reflexivity | intros [= -> ->]; auto].
Qed.

Lemma jsstring_eqb_refl (a : jsstring) : jsstring_eqb a a = true.
Proof. apply jsstring_eqb_eq; reflexivity. Qed.

Lemma jsstring_eqb_neq (a b : jsstring) : a <> b -> jsstring_eqb a b = false.
Proof.
  intros H; destruct (jsstring_eqb a b) eqn:E; [|reflexivity].
  apply jsstring_eqb_eq in E; contradiction.
Qed.

Lemma js_cons_not_nil (a : ascii) (s : string) : js (String a s) <> [].
Proof.
  cbn [js]; cbv zeta.
  repeat match goal with
         | |- context [if ?x then _ else _] => destruct x
         | |- context [match ?r with EmptyString => _ | String _ _ => _ end] =>
             destruct r
         end; discriminate.
Qed.

Lemma is_digit_range (c : code_unit) :
  is_digit c = true <-> (48 <= c <= 57)%N.
Proof.
  unfold is_digit; rewrite andb_true_iff, !N.leb_le; tauto.
Qed.

Lemma digit_value_range (c : code_unit) :
  is_digit c = true -> 0 <= digit_value c <= 9.
Proof.
  rewrite is_digit_range; unfold digit_value; lia.
Qed.

(** A digit is neither white space nor a hyphen nor a sign. *)
Lemma digit_not_whitespace (c : code_unit) :
  is_digit c = true -> is_whitespace c = false.
Proof.
  rewrite is_digit_range; intros H; unfold is_whitespace.
  repeat match goal with
         | |- context [(?a <=? ?b)%N] => destruct (N.leb_spec a b)
         | |- context [(?a =? ?b)%N] => destruct (N.eqb_spec a b)
         end; simpl; try reflexivity; lia.
Qed.

Lemma digit_not_hyphen (c : code_unit) :
  is_digit c = true -> (c =? hyphen)%N = false.
Proof.
  rewrite is_digit_range; intros H; apply N.eqb_neq; unfold hyphen; lia.
Qed.

Lemma digit_not_plus (c : code_unit) :
  is_digit c = true -> (c =? plus_sign)%N = false.
Proof.
  rewrite is_digit_range; intros H; apply N.eqb_neq; unfold plus_sign; lia.
Qed.

Lemma existsb_negb_forallb {A} (p : A -> bool) (l : list A) :
  existsb (fun x => negb (p x)) l = negb (forallb p l).
Proof.
  induction l as [|x l IH]; simpl; [reflexivity|].
  rewrite IH; destruct (p x); reflexivity.
Qed.

Lemma firstn_succ_nth_error {A} (l : list A) (i : nat) (x : A) :
  nth_error l i = Some x -> firstn (S i) l = firstn i l ++ [x].
Proof.
  revert i; induction l as [|y l IH]; intros [|i] H; simpl in *;
    try discriminate.
  - injection H as ->; reflexivity.
  - f_equal; apply IH; exact H.
Qed.

(** ** luhnCheck *)

Lemma strip_separators_digits (S : jsstring) :
  digit_string S -> strip_separators S = S.
Proof.
  unfold digit_string, strip_separators.
  induction S as [|c S IH]; simpl; [reflexivity|].
  rewrite andb_true_iff; intros [Hc HS].
  rewrite (digit_not_whitespace c Hc), (digit_not_hyphen c Hc); simpl.
  f_equal; apply IH; exact HS.
Qed.

Lemma parseInt_digit (c : code_unit) :
  is_digit c = true -> parseInt [c] = Some (digit_value c).
Proof.
  intros H; unfold parseInt; simpl.
  rewrite (digit_not_whitespace c H), (digit_not_hyphen c H),
    (digit_not_plus c H); simpl; rewrite H.
  unfold digits_value; simpl; f_equal.
  destruct (digit_value c); reflexivity.
Qed.

(** One turn of the loop adds the digit, doubled and reduced on every
    second turn. *)
Lemma luhn_loop_sum (cleaned : jsstring) :
  digit_string cleaned ->
  forall (n : nat) (acc : Z) (double : bool),
    (n <= List.length cleaned)%nat ->
    luhn_loop cleaned n (Some acc) double
    = Some (acc + weighted_sum double
                    (rev (map digit_value (firstn n cleaned)))).
Proof.
  intros Hd; induction n as [|i IH]; intros acc double Hn.
  - simpl; f_equal; lia.
  - assert (Hi : (i < List.length cleaned)%nat) by lia.
    destruct (nth_error cleaned i) as [c|] eqn:Hc;
      [|apply nth_error_None in Hc; lia].
    assert (Hdc : is_digit c = true).
    { unfold digit_string in Hd; rewrite forallb_forall in Hd.
      apply Hd; eapply nth_error_In; exact Hc. }
    rewrite (firstn_succ_nth_error _ _ _ Hc), map_app, rev_app_distr.
    cbn [luhn_loop map rev app weighted_sum].
    unfold charAt; rewrite Hc, (parseInt_digit c Hdc).
    destruct double; cbn [num_mul num_gt num_lt num_sub num_add negb].
    + unfold doubled.
      replace (digit_value c * 2) with (2 * digit_value c) by lia.
      destruct (9 <? 2 * digit_value c);
        cbn [num_add]; rewrite IH by lia; f_equal; lia.
    + rewrite IH by lia; f_equal; lia.
Qed.

Lemma rem_10_zero (x : Z) : (Z.rem x 10 =? 0) = (x mod 10 =? 0).
Proof.
  destruct (Z.eqb_spec (Z.rem x 10) 0) as [H|H];
    destruct (Z.eqb_spec (x mod 10) 0) as [H'|H']; try reflexivity; exfalso.
  - apply H'; apply Z.mod_divide; [lia|].
    apply Z.rem_divide; [lia | exact H].
  - apply H; apply Z.rem_divide; [lia|].
    apply Z.mod_divide; [lia | exact H'].
Qed.

(** On a non-empty run of digits the validator is the sum test. *)
Lemma luhnCheck_digits (S : jsstring) :
  S <> [] -> digit_string S ->
  luhnCheck S = (mod10_sum S mod 10 =? 0).
Proof.
  intros Hne Hd; unfold luhnCheck.
  rewrite (strip_separators_digits S Hd).
  assert (Ho : only_digits S = true).
  { destruct S; [contradiction | exact Hd]. }
  rewrite Ho; cbn [negb].
  rewrite (luhn_loop_sum S Hd) by lia.
  rewrite firstn_all; cbn [num_rem num_strict_eq Z.eqb].
  unfold mod10_sum; rewrite Z.add_0_l; apply rem_10_zero.
Qed.

Lemma luhnCheck_checksum_rule (s : jsstring) :
  luhnCheck s = checksum_rule s.
Proof.
  unfold luhnCheck, checksum_rule, strip_separators.
  set (t := filter _ s).
  destruct t as [|c t'] eqn:Et; [reflexivity|].
  rewrite <- Et; rewrite existsb_negb_forallb.
  assert (Ho : only_digits t = forallb is_digit t) by (rewrite Et; reflexivity).
  rewrite Ho; destruct (forallb is_digit t) eqn:Hd; cbn [negb]; [|reflexivity].
  rewrite (luhn_loop_sum t Hd) by lia.
  rewrite firstn_all; cbn [num_rem num_strict_eq Z.eqb].
  unfold mod10_sum; rewrite Z.add_0_l; apply rem_10_zero.
Qed.

(** C1, as stated, fails at the empty string: it consists only of digits and
    its sum, 0, is divisible by 10, yet [luhnCheck] rejects it. *)
Lemma luhnCheck_empty_digit_string :
  ~ (digit_string [] ->
     (luhnCheck [] = true <-> mod10_sum [] mod 10 = 0)).
Proof.
  intros H.
  assert (Hd : digit_string []) by reflexivity.
  destruct (H Hd) as [_ Hback].
  assert (Hs : mod10_sum [] mod 10 = 0) by reflexivity.
  specialize (Hback Hs); vm_compute in Hback; discriminate.
Qed.

(** C1 (amended): for every non-empty string S consisting only of digits,
    [luhnCheck S] is true if and only if the mod-10
    double-every-second-digit sum of S is divisible by 10; it is true for
    4571736000000000 and false for 4571736000000001. *)
Theorem luhnCheck_iff_mod10_sum :
  (forall S : jsstring, S <> [] -> digit_string S ->
     (luhnCheck S = true <-> mod10_sum S mod 10 = 0))
  /\ luhnCheck (js "4571736000000000") = true
  /\ luhnCheck (js "4571736000000001") = false.
Proof.
  split; [|split; vm_compute; reflexivity].
  intros S Hne Hd.
  rewrite (luhnCheck_digits S Hne Hd); apply Z.eqb_eq.
Qed.

Lemma luhnCheck_iff_mod10_sum_witness :
  luhnCheck (js "79927398713") = true
  <-> mod10_sum (js "79927398713") mod 10 = 0.
Proof.
  apply (proj1 luhnCheck_iff_mod10_sum).
  - vm_compute; discriminate.
  - vm_compute; reflexivity.
Defined.

(** The example of the specification tells which digits are the "second"
    ones: doubling the first, third, ... digit from the right instead would
    reject 4571736000000000. *)
Example doubling_starts_at_second_digit :
  weighted_sum false (rev (map digit_value (js "4571736000000000"))) = 30
  /\ weighted_sum true (rev (map digit_value (js "4571736000000000"))) = 33.
Proof. split; vm_compute; reflexivity. Qed.

(** C2, as stated, fails on two inputs.  The empty string: no remaining
    character is a non-digit and the sum 0 is divisible by 10, so the stated
    algorithm accepts it, and [luhnCheck] rejects it.  The string 0, TAB, 0:
    a tab is neither a space nor a hyphen, so the stated algorithm rejects
    it, and [luhnCheck], which strips all white space, accepts it. *)
Lemma luhnCheck_differs_from_specified :
  luhnCheck [] <> checksum_as_specified []
  /\ luhnCheck [48; 9; 48]%N <> checksum_as_specified [48; 9; 48]%N.
Proof. split; vm_compute; discriminate. Qed.

(** C2 (amended): [luhnCheck] strips white space (every character of the
    class \s) and hyphens; if nothing remains or a remaining character is
    not a digit it returns false, a normal result; otherwise it traverses
    the digits right to left, doubles every second digit, subtracts 9 from a
    doubled digit above 9, sums, and returns true iff the sum is divisible
    by 10.  For example it returns false for "abcd". *)
Theorem luhnCheck_algorithm :
  (forall s : jsstring, luhnCheck s = checksum_rule s)
  /\ luhnCheck (js "abcd") = false.
Proof.
  split; [exact luhnCheck_checksum_rule | vm_compute; reflexivity].
Qed.

(** Where the stated algorithm and the code agree: on strings with no white
    space other than the space character that keep a character when
    stripped. *)
Lemma checksum_as_specified_agrees (s : jsstring) :
  forallb (fun c => negb (is_whitespace c) || (c =? space)%N) s = true ->
  strip_separators s <> [] ->
  luhnCheck s = checksum_as_specified s.
Proof.
  intros Hw Hne; rewrite luhnCheck_checksum_rule.
  unfold checksum_rule, checksum_as_specified.
  assert (Hf : filter (fun c => negb (is_whitespace c || (c =? hyphen)%N)) s
               = filter (fun c => negb ((c =? space) || (c =? hyphen))%N) s).
  { apply filter_ext_in; intros c Hc.
    rewrite forallb_forall in Hw; specialize (Hw c Hc).
    destruct (N.eqb_spec c space) as [Hs|Hs]; [rewrite Hs; reflexivity|].
    rewrite orb_false_r in Hw; apply negb_true_iff in Hw; rewrite Hw.
    reflexivity. }
  unfold strip_separators in Hne; cbv zeta; rewrite Hf in Hne |- *.
  clear Hf.
  remember (filter (fun c => negb ((c =? space) || (c =? hyphen))%N) s) as t.
  destruct t; [contradiction | reflexivity].
Qed.

Lemma luhnCheck_nothing_left (s : jsstring) :
  strip_separators s = [] -> luhnCheck s = false.
Proof. unfold luhnCheck; intros ->; reflexivity. Qed.

(** C9: [luhnCheck] returns false for the empty string and for every input
    made only of spaces and hyphens, which stripping leaves empty. *)
Theorem luhnCheck_only_separators (s : jsstring) :
  forallb (fun c => (c =? space)%N || (c =? hyphen)%N) s = true ->
  strip_separators s = [] /\ luhnCheck s = false.
Proof.
  intros H.
  assert (Hs : strip_separators s = []).
  { unfold strip_separators; induction s as [|c s IH]; [reflexivity|].
    simpl in H; apply andb_true_iff in H; destruct H as [Hc H].
    simpl; rewrite (IH H).
    apply orb_true_iff in Hc; destruct Hc as [Hc|Hc].
    - apply N.eqb_eq in Hc; subst c; reflexivity.
    - rewrite Hc, orb_true_r; reflexivity. }
  split; [exact Hs | apply luhnCheck_nothing_left; exact Hs].
Qed.

Lemma luhnCheck_only_separators_witness :
  strip_separators (js "  - -") = [] /\ luhnCheck (js "  - -") = false.
Proof. apply (luhnCheck_only_separators (js "  - -")); reflexivity. Defined.

Example luhnCheck_empty : luhnCheck [] = false.
Proof. reflexivity. Qed.

(** ** isExpiryValid *)

Lemma run_isExpiryValid (E : env) (month year : jsstring) (t : nat) :
  run E (isExpiryValid month year) t
  = (isExpiryValid_at (getFullYear (clock E t))
       (getMonth (clock E (S t)) + 1) month year,
     [EvNewDate; EvNewDate]).
Proof. reflexivity. Qed.

Ltac compare_all :=
  repeat match goal with
         | |- context [?a <? ?b] => destruct (Z.ltb_spec a b)
         | |- context [?a =? ?b] => destruct (Z.eqb_spec a b)
         end.

Lemma some_eq {A} (a b : A) : Some a = Some b -> a = b.
Proof. intros H; injection H as H; exact H. Qed.

Ltac some_eqs :=
  repeat match goal with
         | H : Some _ = None |- _ => discriminate H
         | H : None = Some _ |- _ => discriminate H
         | H : Some _ = Some ?b |- _ => apply some_eq in H; subst b
         end.

(** When the function is false, and that it is true otherwise. *)
Lemma isExpiryValid_at_cases (currentYear currentMonth : Z)
    (month year : jsstring) :
  (isExpiryValid_at currentYear currentMonth month year = false <->
     parseInt month = NaN \/ parseInt year = NaN
     \/ (exists m, parseInt month = Some m /\ (m < 1 \/ 12 < m))
     \/ (exists y, resolved_year year = Some y /\ y < currentYear)
     \/ (exists m y, parseInt month = Some m /\ resolved_year year = Some y
                     /\ y = currentYear /\ m < currentMonth))
  /\ (forall m y,
        parseInt month = Some m -> 1 <= m <= 12 ->
        resolved_year year = Some y ->
        (y = currentYear /\ currentMonth <= m) \/ currentYear < y ->
        isExpiryValid_at currentYear currentMonth month year = true).
Proof.
  unfold isExpiryValid_at, resolved_year.
  destruct (parseInt month) as [m|]; destruct (parseInt year) as [y|];
    destruct (List.length year =? 2)%nat;
    cbn [num_add isNaN num_lt num_gt num_strict_eq orb andb NaN];
    unfold NaN.
  all: split; [split|].
  (* a case of the disjunction makes the function false *)
  all: try (intros [Hm|[Hy|[(m' & Hm & Hr)|[(y' & Hy & Hlt)
                                      |(m' & y' & Hm & Hy & He & Hl)]]]];
            some_eqs; compare_all; cbn [orb andb]; try reflexivity; lia).
  (* the acceptance of the current and of later months *)
  all: try (intros m' y' Hm Hr Hy Hc; some_eqs;
            compare_all; cbn [orb andb]; try reflexivity; lia).
  (* the function is false only in a case of the disjunction *)
  all: try (intros _; left; reflexivity).
  all: try (intros _; right; left; reflexivity).
  all: compare_all; cbn [orb andb]; intros Hf; try discriminate Hf.
  all: first
         [ do 2 right; left; exists m; split; [reflexivity | lia]
         | do 3 right; left; eexists; split; [reflexivity | lia]
         | do 4 right; do 2 eexists;
           split; [reflexivity | split; [reflexivity | lia]] ].
Qed.

(** C3: with the current year and month as parameters, [isExpiryValid] is
    false iff the month or the year does not parse as an integer, the month
    is outside [1,12], the resolved year (2000 + year for a two-character
    year string, the parsed year otherwise) is before the current year, or
    it is the current year and the month is before the current month.  So it
    accepts the current month of the current year and every later month.
    The current year and month are what the two reads of the clock give. *)
Theorem isExpiryValid_at_spec (currentYear currentMonth : Z)
    (month year : jsstring) :
  (forall (E : env) (t : nat),
      getFullYear (clock E t) = currentYear ->
      getMonth (clock E (S t)) + 1 = currentMonth ->
      fst (run E (isExpiryValid month year) t)
      = isExpiryValid_at currentYear currentMonth month year)
  /\ (isExpiryValid_at currentYear currentMonth month year = false <->
        parseInt month = NaN \/ parseInt year = NaN
        \/ (exists m, parseInt month = Some m /\ (m < 1 \/ 12 < m))
        \/ (exists y, resolved_year year = Some y /\ y < currentYear)
        \/ (exists m y, parseInt month = Some m
                        /\ resolved_year year = Some y
                        /\ y = currentYear /\ m < currentMonth))
  /\ (forall m y,
        parseInt month = Some m -> 1 <= m <= 12 ->
        resolved_year year = Some y ->
        (y = currentYear /\ currentMonth <= m) \/ currentYear < y ->
        isExpiryValid_at currentYear currentMonth month year = true).
Proof.
  split; [|exact (isExpiryValid_at_cases currentYear currentMonth month year)].
  intros E t Hy Hm; rewrite run_isExpiryValid, Hy, Hm; reflexivity.
Qed.

Lemma isExpiryValid_at_spec_witness :
  isExpiryValid_at 2026 11 (js "11") (js "26") = true.
Proof.
  apply (proj2 (proj2 (isExpiryValid_at_spec 2026 11 (js "11") (js "26")))
           11 2026).
  - vm_compute; reflexivity.
  - lia.
  - vm_compute; reflexivity.
  - lia.
Defined.

(** On year strings made of digits the resolved year is what the
    specification says: 2000 + year for two digits, the year itself
    otherwise. *)
Lemma parseInt_digits (ds : jsstring) :
  ds <> [] -> digit_string ds -> parseInt ds = Some (digits_value ds).
Proof.
  intros Hne Hd; unfold parseInt.
  destruct ds as [|c ds]; [contradiction|].
  unfold digit_string in Hd; cbn [forallb] in Hd.
  apply andb_true_iff in Hd; destruct Hd as [Hc Hd].
  cbn [dropWhile]; rewrite (digit_not_whitespace c Hc),
    (digit_not_hyphen c Hc), (digit_not_plus c Hc).
  assert (Ht : takeWhile is_digit (c :: ds) = c :: ds).
  { cbn [takeWhile]; rewrite Hc; f_equal; clear Hne.
    induction ds as [|d ds IH]; [reflexivity|].
    cbn [forallb] in Hd; apply andb_true_iff in Hd; destruct Hd as [H1 H2].
    cbn [takeWhile]; rewrite H1, (IH H2); reflexivity. }
  rewrite Ht; f_equal; apply Z.mul_1_l.
Qed.

Lemma resolved_year_digits (year : jsstring) :
  year <> [] -> digit_string year ->
  resolved_year year
  = Some (if (List.length year =? 2)%nat
          then 2000 + digits_value year else digits_value year)
  /\ two_digits year = (List.length year =? 2)%nat.
Proof.
  intros Hne Hd; unfold resolved_year.
  rewrite (parseInt_digits year Hne Hd); split; [reflexivity|].
  destruct year as [|a [|b [|c r]]]; try reflexivity.
  unfold digit_string in Hd; cbn [forallb] in Hd.
  rewrite andb_true_r in Hd; exact Hd.
Qed.

(** A two-character string that is not two digits parses to at most one
    digit, with or without a sign. *)
Lemma parseInt_two_characters (a b : code_unit) :
  is_digit a && is_digit b = false ->
  match parseInt [a; b] with
  | Some y => -9 <= y <= 9
  | None => True
  end.
Proof.
  intros H; unfold parseInt; cbn [dropWhile].
  pose proof (digit_value_range a) as Ha.
  pose proof (digit_value_range b) as Hb.
  destruct (is_whitespace a) eqn:Wa; cbn [dropWhile];
    [destruct (is_whitespace b) eqn:Wb; cbn [dropWhile]|].
  all: repeat match goal with
         | |- context [(?x =? ?y)%N] => destruct (x =? y)%N
         end; cbn [takeWhile].
  all: destruct (is_digit a) eqn:Da; destruct (is_digit b) eqn:Db;
    try discriminate H; cbn [takeWhile]; try exact I.
  all: unfold digits_value; cbn [fold_left];
    try specialize (Ha eq_refl); try specialize (Hb eq_refl); lia.
Qed.

(** From 2010 on the two readings of "has 2 digits" give the same rule:
    a two-character year that is not two digits lies before the current
    year either way. *)
Lemma isExpiryValid_at_strict_reading (currentYear currentMonth : Z)
    (month year : jsstring) :
  2010 <= currentYear ->
  (isExpiryValid_at currentYear currentMonth month year = false <->
     parseInt month = NaN \/ parseInt year = NaN
     \/ (exists m, parseInt month = Some m /\ (m < 1 \/ 12 < m))
     \/ (exists y, resolved_year_strict year = Some y /\ y < currentYear)
     \/ (exists m y, parseInt month = Some m
                     /\ resolved_year_strict year = Some y
                     /\ y = currentYear /\ m < currentMonth)).
Proof.
  intros Hcy.
  rewrite (proj1 (isExpiryValid_at_cases currentYear currentMonth month year)).
  assert (Hsame :
    resolved_year_strict year = resolved_year year
    \/ exists y y', resolved_year year = Some y
                    /\ resolved_year_strict year = Some y'
                    /\ y < currentYear /\ y' < currentYear).
  { unfold resolved_year_strict, resolved_year.
    destruct year as [|a [|b [|c r]]]; cbn [two_digits List.length Nat.eqb];
      try (left; destruct (parseInt _); reflexivity).
    destruct (is_digit a && is_digit b) eqn:Hd; [left; reflexivity|].
    pose proof (parseInt_two_characters a b Hd) as Hb.
    destruct (parseInt [a; b]) as [y|]; [|left; reflexivity].
    right; exists (2000 + y), y; repeat split; lia. }
  destruct Hsame as [->|(y & y' & Hy & Hy' & Hlt & Hlt')]; [reflexivity|].
  rewrite Hy, Hy'; split;
    intros [H|[H|[H|[H|(m0 & y0 & Hm & Hr & He & Hl)]]]]; auto.
  - do 3 right; left; exists y'; auto.
  - apply some_eq in Hr; subst y0; lia.
  - do 3 right; left; exists y; auto.
  - apply some_eq in Hr; subst y0; lia.
Qed.

(** ** Routing *)

Lemma is_card_query_iff (req : IncomingMessage) :
  is_card_query req = true <->
  method req = js "GET"
  /\ exists b c m y,
       path_segments (pathname req) = [js "cardinfo"; b; c; m; y].
Proof.
  unfold is_card_query; split.
  - intros H.
    apply andb_true_iff in H; destruct H as [H H5].
    apply andb_true_iff in H; destruct H as [Hm H0].
    apply jsstring_eqb_eq in Hm; split; [exact Hm|].
    destruct (path_segments (pathname req))
      as [|s0 [|s1 [|s2 [|s3 [|s4 [|s5 l]]]]]]; try discriminate.
    cbn [nth_error] in H0; apply jsstring_eqb_eq in H0; subst s0.
    do 4 eexists; reflexivity.
  - intros [Hm (b & c & m & y & Hp)].
    rewrite Hp, Hm; cbn [nth_error List.length Nat.eqb].
    rewrite !jsstring_eqb_refl; reflexivity.
Qed.

Lemma server_card_query (req : IncomingMessage) (b c m y : jsstring) :
  method req = js "GET" ->
  path_segments (pathname req) = [js "cardinfo"; b; c; m; y] ->
  server req = card_query b c m y.
Proof.
  intros Hm Hp; unfold server.
  rewrite (proj2 (is_card_query_iff req)) by (split; [exact Hm | eauto]).
  rewrite Hp; reflexivity.
Qed.

Lemma server_not_found (req : IncomingMessage) :
  is_card_query req = false -> server req = Ret not_found.
Proof. unfold server; intros ->; reflexivity. Qed.

(** [split] cuts at the separators and nowhere else: joining the pieces
    with the separator gives the string back, and no piece holds one. *)
Lemma split_not_nil (sep : code_unit) (s : jsstring) : split sep s <> [].
Proof.
  destruct s as [|c s]; simpl; [discriminate|].
  destruct (c =? sep)%N; [discriminate|].
  destruct (split sep s); discriminate.
Qed.

Lemma join_split (sep : code_unit) (s : jsstring) :
  join sep (split sep s) = s.
Proof.
  induction s as [|c s IH]; [reflexivity|].
  simpl; destruct (N.eqb_spec c sep) as [->|Hc].
  - pose proof (split_not_nil sep s) as Hn.
    destruct (split sep s) as [|seg segs]; [contradiction|].
    simpl in *; rewrite IH; reflexivity.
  - pose proof (split_not_nil sep s) as Hn.
    destruct (split sep s) as [|seg segs]; [contradiction|].
    destruct segs; simpl in *; rewrite <- IH; reflexivity.
Qed.

Lemma split_no_separator (sep : code_unit) (s seg : jsstring) :
  In seg (split sep s) -> ~ In sep seg.
Proof.
  revert seg; induction s as [|c s IH]; intros seg; simpl.
  - intros [<-|[]] [].
  - destruct (N.eqb_spec c sep) as [->|Hc].
    + intros [<-|H]; [intros [] | apply IH; exact H].
    + pose proof (split_not_nil sep s) as Hn.
      destruct (split sep s) as [|seg0 segs]; [contradiction|].
      intros [<-|H].
      * intros [E|H0]; [congruence|].
        apply (IH seg0); [left; reflexivity | exact H0].
      * apply IH; right; exact H.
Qed.

(** The segments of a path are non-empty and free of slashes. *)
Lemma path_segments_spec (path seg : jsstring) :
  In seg (path_segments path) -> seg <> [] /\ ~ In slash seg.
Proof.
  unfold path_segments; rewrite filter_In; intros [H Hl]; split.
  - intros ->; discriminate Hl.
  - apply (split_no_separator slash path); exact H.
Qed.

(** ** Reading upstream data *)

Arguments js : simpl never.
Arguments luhnCheck : simpl never.
Arguments isExpiryValid_at : simpl never.
Arguments number_to_string : simpl never.

Lemma get_prop (v : value) (k : jsstring) :
  nullish v = false -> get v k = Normal (prop v k).
Proof. destruct v; intros H; try discriminate H; reflexivity. Qed.

Lemma truthy_not_nullish (v : value) : truthy v = true -> nullish v = false.
Proof. destruct v; intros H; try discriminate H; reflexivity. Qed.

Lemma guarded_normal (binData : value) (parent child : string) :
  nullish binData = false ->
  guarded binData parent child
  = Normal (guarded_value binData parent child).
Proof.
  intros H; unfold guarded, guarded_value.
  rewrite (get_prop binData _ H); cbn [cbind].
  destruct (truthy (prop binData (js parent))) eqn:T; [|reflexivity].
  apply get_prop, truthy_not_nullish; exact T.
Qed.

(** Upstream data other than [null] builds the object literal without an
    exception... *)
Lemma card_info_of_normal (binData : value) :
  nullish binData = false ->
  card_info_of binData = Normal (card_info_value binData).
Proof.
  intros H; unfold card_info_of.
  rewrite !(guarded_normal binData _ _ H), !(get_prop binData _ H).
  cbn [cbind]; unfold card_info_value.
  destruct (truthy (prop binData (js "number"))) eqn:T; [|reflexivity].
  rewrite (get_prop _ (js "luhn") (truthy_not_nullish _ T)); reflexivity.
Qed.

(** ... and [null] makes its first property read throw. *)
Lemma card_info_of_nullish (binData : value) :
  nullish binData = true -> card_info_of binData = Throw ThrownTypeError.
Proof. destruct binData; intros H; try discriminate H; reflexivity. Qed.

(** ** The card query *)

(** Runs the handler forward, splitting on what the environment answers. *)
Ltac run_forward E :=
  repeat first
    [ progress cbn [bind run fst snd on_catch not_set_true
                    set_luhn_valid set_expiry_valid validation
                    luhn_valid expiry_valid]
    | match goal with
      | |- context [network E ?h ?p] => destruct (network E h p) as [? ?|?]
      | |- context [JSON_parse E ?d] => destruct (JSON_parse E d) as [?|?]
      | |- context [if ?z =? 200 then _ else _] => destruct (z =? 200)
      | |- context [if ?z =? 404 then _ else _] => destruct (z =? 404)
      | |- context [match card_info_of ?v with _ => _ end] =>
          destruct (card_info_of v) as [?|?]
      end ].

Lemma on_catch_rejection (r : response_t) (e : rejection) :
  error e <> [] ->
  on_catch r (ThrownRejection e)
  = ConsoleError (ThrownRejection e)
      (Ret {| code := match e_status e with
                      | Some s => if s =? 0 then 500 else s
                      | None => 500
                      end;
              content := ResponseBody (set_message r (error e)) |}).
Proof.
  intros H; unfold on_catch; cbn [thrown_error thrown_status].
  destruct (error e); [contradiction | reflexivity].
Qed.

Lemma on_catch_type_error (r : response_t) :
  on_catch r ThrownTypeError
  = ConsoleError ThrownTypeError
      (Ret {| code := 500;
              content := ResponseBody
                (set_message r
                   (js "Erro interno do servidor durante a consulta externa.")) |}).
Proof. reflexivity. Qed.

Opaque js.

Section CardQuery.
Variable E : env.
Variable t : nat.
Variables b c m y : jsstring.

(** Whatever the validators and the upstream service say, the response
    carries the metadata, the echo of the request and both validation
    results. *)
Lemma card_query_shape :
  exists r,
    content (fst (run E (card_query b c m y) t)) = ResponseBody r
    /\ metadata r = API_METADATA
    /\ request r = {| bin := b; cardNumber := c;
                      expiryMonth := m; expiryYear := y |}
    /\ validation r = {| luhn_valid := Some (luhnCheck c);
                         expiry_valid := Some (expiry_at E t m y) |}.
Proof.
  unfold card_query, isExpiryValid, lookupBin.
  cbn [bind run fst snd]; fold (expiry_at E t m y).
  destruct (luhnCheck c); destruct (expiry_at E t m y); run_forward E;
    eexists; repeat split.
Qed.

(** The expiry check runs in every case: the trace begins with its two
    reads of the clock. *)
Lemma card_query_reads_clock :
  exists rest,
    snd (run E (card_query b c m y) t) = EvNewDate :: EvNewDate :: rest.
Proof.
  unfold card_query, isExpiryValid; cbn [bind run fst snd].
  eexists; reflexivity.
Qed.

Lemma run_bad_luhn :
  luhnCheck c = false ->
  run E (card_query b c m y) t
  = ({| code := 400;
        content := ResponseBody
          (set_message (validated b c m y false (expiry_at E t m y))
             (js "Falha na validação estrutural do número do cartão (Algoritmo de Luhn).")) |},
     [EvNewDate; EvNewDate]).
Proof.
  intros Hl; unfold card_query, isExpiryValid.
  cbn [bind run fst snd]; fold (expiry_at E t m y); rewrite Hl; reflexivity.
Qed.

Lemma run_bad_expiry :
  luhnCheck c = true -> expiry_at E t m y = false ->
  run E (card_query b c m y) t
  = ({| code := 400;
        content := ResponseBody
          (set_message (validated b c m y true false)
             (js "Falha na validação da data de expiração (cartão expirado ou data inválida).")) |},
     [EvNewDate; EvNewDate]).
Proof.
  intros Hl He; unfold card_query, isExpiryValid.
  cbn [bind run fst snd]; fold (expiry_at E t m y); rewrite Hl, He; reflexivity.
Qed.

(** From here on both validations pass and the lookup is made. *)
Hypothesis luhn_ok : luhnCheck c = true.
Hypothesis expiry_ok : expiry_at E t m y = true.

Ltac to_lookup :=
  unfold card_query, isExpiryValid, lookupBin;
  cbn [bind run fst snd]; fold (expiry_at E t m y); rewrite luhn_ok, expiry_ok;
  cbn [bind run fst snd not_set_true set_luhn_valid set_expiry_valid
       validation luhn_valid expiry_valid];
  fold binlist_host.

Lemma run_resolved (data : jsstring) (v : value) :
  network E binlist_host (js "/" ++ b) = UpstreamResponse 200 data ->
  JSON_parse E data = Parsed v ->
  nullish v = false ->
  run E (card_query b c m y) t
  = ({| code := 200;
        content := ResponseBody
          (set_card_info (looked_up b c m y) (card_info_value v)) |},
     [EvNewDate; EvNewDate; lookup_event b; EvJSONparse data]).
Proof.
  intros Hn Hp Hv; to_lookup; rewrite Hn.
  cbn [Z.eqb Pos.eqb bind run fst snd]; rewrite Hp.
  cbn [bind run fst snd]; rewrite (card_info_of_normal v Hv); reflexivity.
Qed.

Lemma run_resolved_null (data : jsstring) (v : value) :
  network E binlist_host (js "/" ++ b) = UpstreamResponse 200 data ->
  JSON_parse E data = Parsed v ->
  nullish v = true ->
  run E (card_query b c m y) t
  = ({| code := 500;
        content := ResponseBody
          (set_message (looked_up b c m y)
             (js "Erro interno do servidor durante a consulta externa.")) |},
     [EvNewDate; EvNewDate; lookup_event b; EvJSONparse data;
      EvConsoleError ThrownTypeError]).
Proof.
  intros Hn Hp Hv; to_lookup; rewrite Hn.
  cbn [Z.eqb Pos.eqb bind run fst snd]; rewrite Hp.
  cbn [bind run fst snd]; rewrite (card_info_of_nullish v Hv).
  rewrite on_catch_type_error; reflexivity.
Qed.

Lemma run_parse_error (data msg : jsstring) :
  network E binlist_host (js "/" ++ b) = UpstreamResponse 200 data ->
  JSON_parse E data = SyntaxError msg ->
  run E (card_query b c m y) t
  = ({| code := 500;
        content := ResponseBody
          (set_message (validated b c m y true true)
             (js "Erro ao analisar a resposta da BIN List")) |},
     [EvNewDate; EvNewDate; lookup_event b; EvJSONparse data;
      EvConsoleError (ThrownRejection
        {| error := js "Erro ao analisar a resposta da BIN List";
           e_status := None; details := Some msg |})]).
Proof.
  intros Hn Hp; to_lookup; rewrite Hn.
  cbn [Z.eqb Pos.eqb bind run fst snd]; rewrite Hp.
  cbn [bind run fst snd].
  rewrite on_catch_rejection by apply js_cons_not_nil; reflexivity.
Qed.

Lemma run_upstream_404 (data : jsstring) :
  network E binlist_host (js "/" ++ b) = UpstreamResponse 404 data ->
  run E (card_query b c m y) t
  = ({| code := 404;
        content := ResponseBody
          (set_message (validated b c m y true true)
             (js "BIN não encontrado na base de dados.")) |},
     [EvNewDate; EvNewDate; lookup_event b;
      EvConsoleError (ThrownRejection
        {| error := js "BIN não encontrado na base de dados.";
           e_status := Some 404; details := None |})]).
Proof.
  intros Hn; to_lookup; rewrite Hn.
  cbn [Z.eqb Pos.eqb bind run fst snd].
  rewrite on_catch_rejection by apply js_cons_not_nil; reflexivity.
Qed.

Lemma run_upstream_other (statusCode : Z) (data : jsstring) :
  network E binlist_host (js "/" ++ b) = UpstreamResponse statusCode data ->
  statusCode <> 200 -> statusCode <> 404 ->
  run E (card_query b c m y) t
  = ({| code := 500;
        content := ResponseBody
          (set_message (validated b c m y true true)
             (js "Erro na consulta à BIN List: Status "
              ++ number_to_string statusCode)) |},
     [EvNewDate; EvNewDate; lookup_event b;
      EvConsoleError (ThrownRejection
        {| error := js "Erro na consulta à BIN List: Status "
                    ++ number_to_string statusCode;
           e_status := None; details := Some data |})]).
Proof.
  intros Hn H200 H404; to_lookup; rewrite Hn.
  apply Z.eqb_neq in H200, H404; rewrite H200, H404.
  cbn [bind run fst snd].
  rewrite on_catch_rejection; [reflexivity|].
  cbn [error]; intros H; apply app_eq_nil in H; destruct H as [H _].
  exact (js_cons_not_nil _ _ H).
Qed.

Lemma run_transport_failure (msg : jsstring) :
  network E binlist_host (js "/" ++ b) = UpstreamFailure msg ->
  run E (card_query b c m y) t
  = ({| code := 500;
        content := ResponseBody
          (set_message (validated b c m y true true)
             (js "Erro na requisição HTTP para a BIN List")) |},
     [EvNewDate; EvNewDate; lookup_event b;
      EvConsoleError (ThrownRejection
        {| error := js "Erro na requisição HTTP para a BIN List";
           e_status := None; details := Some msg |})]).
Proof.
  intros Hn; to_lookup; rewrite Hn.
  cbn [bind run fst snd].
  rewrite on_catch_rejection by apply js_cons_not_nil; reflexivity.
Qed.
End CardQuery.

Transparent js.

(** ** The handler *)

Lemma run_server_not_found (E : env) (t : nat) (req : IncomingMessage) :
  is_card_query req = false -> run E (server req) t = (not_found, []).
Proof. intros H; rewrite (server_not_found req H); reflexivity. Qed.

(** C4: what the handler answers when the upstream service replies 200 with
    the body [null].  The body parses, the lookup resolves with the parsed
    value, and the response is a 500 whose [status] is "success" and whose
    message is the fallback text of the [catch] clause. *)
Theorem null_body_answers_500 :
  network null_body_env binlist_host (js "/457173")
    = UpstreamResponse 200 (js "null")
  /\ JSON_parse null_body_env (js "null") = Parsed VNull
  /\ run null_body_env (server get_request) 0
     = ({| code := 500;
           content := ResponseBody
             {| metadata := API_METADATA;
                request := {| bin := js "457173";
                              cardNumber := js "4571736000000000";
                              expiryMonth := js "12";
                              expiryYear := js "28" |};
                validation := {| luhn_valid := Some true;
                                 expiry_valid := Some true |};
                card_info := VNull;
                status := js "success";
                message :=
                  js "Erro interno do servidor durante a consulta externa."
             |} |},
        [EvNewDate; EvNewDate;
         EvHttpsRequest binlist_host (js "/457173");
         EvJSONparse (js "null");
         EvConsoleError ThrownTypeError]).
Proof. repeat split; vm_compute; reflexivity. Qed.

(** The same for every environment: a body that parses to [null] is
    answered with 500, any other parsed value with 200. *)
Lemma parsed_body_outcome (E : env) (t : nat) (b c m y data : jsstring)
    (v : value) :
  luhnCheck c = true ->
  expiry_at E t m y = true ->
  network E binlist_host (js "/" ++ b) = UpstreamResponse 200 data ->
  JSON_parse E data = Parsed v ->
  code (fst (run E (card_query b c m y) t))
  = if nullish v then 500 else 200.
Proof.
  intros Hl He Hn Hp; destruct (nullish v) eqn:Hv.
  - rewrite (run_resolved_null E t b c m y Hl He data v Hn Hp Hv).
    reflexivity.
  - rewrite (run_resolved E t b c m y Hl He data v Hn Hp Hv).
    reflexivity.
Qed.

(** C5: for a card query both checks are computed (the expiry check reads
    the clock in every case) and both results are stored in the response
    whatever the outcome; a failed checksum is answered with 400 and
    [card_info] null, otherwise a failed expiry check is, and in both cases
    no outbound request is made. *)
Theorem validation_always_stored (E : env) (t : nat) (req : IncomingMessage)
    (b c m y : jsstring) :
  method req = js "GET" ->
  path_segments (pathname req) = [js "cardinfo"; b; c; m; y] ->
  let luhn := luhnCheck c in
  let expiry := expiry_at E t m y in
  let answer := run E (server req) t in
  (exists r, content (fst answer) = ResponseBody r
             /\ validation r = {| luhn_valid := Some luhn;
                                  expiry_valid := Some expiry |})
  /\ (exists rest, snd answer = EvNewDate :: EvNewDate :: rest)
  /\ (luhn = false \/ expiry = false ->
      code (fst answer) = 400
      /\ (exists r, content (fst answer) = ResponseBody r
                    /\ card_info r = VNull)
      /\ outbound (snd answer) = []).
Proof.
  intros Hm Hp luhn expiry answer; subst answer.
  rewrite (server_card_query req b c m y Hm Hp); split; [|split].
  - destruct (card_query_shape E t b c m y) as (r & Hr & _ & _ & Hv).
    exists r; split; [exact Hr | exact Hv].
  - exact (card_query_reads_clock E t b c m y).
  - intros Hbad; destruct luhn eqn:Hl.
    + destruct Hbad as [Hbad|Hbad]; [discriminate|].
      rewrite (run_bad_expiry E t b c m y Hl Hbad).
      repeat split; eexists; split; reflexivity.
    + rewrite (run_bad_luhn E t b c m y Hl).
      repeat split; eexists; split; reflexivity.
Qed.

Lemma validation_always_stored_witness :
  code (fst (run unknown_bin_env (server bad_number_request) 0)) = 400.
Proof.
  refine (proj1 (proj2 (proj2 (validation_always_stored unknown_bin_env 0
            bad_number_request (js "457173") (js "4571736000000001")
            (js "12") (js "28") _ _)) _)).
  - vm_compute; reflexivity.
  - vm_compute; reflexivity.
  - left; vm_compute; reflexivity.
Defined.

(** C8: every response to a card query carries the fixed metadata and the
    four path parameters as they came; the only other response is the
    usage hint of an unknown route. *)
Theorem response_metadata_and_request (E : env) (t : nat)
    (req : IncomingMessage) :
  (forall b c m y,
      method req = js "GET" ->
      path_segments (pathname req) = [js "cardinfo"; b; c; m; y] ->
      exists r, content (fst (run E (server req) t)) = ResponseBody r
                /\ metadata r = API_METADATA
                /\ request r = {| bin := b; cardNumber := c;
                                  expiryMonth := m; expiryYear := y |})
  /\ (is_card_query req = false ->
      fst (run E (server req) t) = not_found).
Proof.
  split.
  - intros b c m y Hm Hp.
    rewrite (server_card_query req b c m y Hm Hp).
    destruct (card_query_shape E t b c m y) as (r & Hr & Hmeta & Hreq & _).
    exists r; auto.
  - intros H; rewrite (run_server_not_found E t req H); reflexivity.
Qed.

Lemma response_metadata_and_request_witness :
  exists r,
    content (fst (run unknown_bin_env (server get_request) 0))
    = ResponseBody r
    /\ metadata r = API_METADATA
    /\ request r = {| bin := js "457173";
                      cardNumber := js "4571736000000000";
                      expiryMonth := js "12"; expiryYear := js "28" |}.
Proof.
  apply (proj1 (response_metadata_and_request unknown_bin_env 0
                  get_request)).
  - vm_compute; reflexivity.
  - vm_compute; reflexivity.
Defined.

(** C6, as stated, fails for a request that is not a GET: the path of
    [post_request] splits into five non-empty segments whose first is
    "cardinfo", and the request is answered with the usage hint. *)
Lemma post_request_not_processed :
  path_segments (pathname post_request)
  = [js "cardinfo"; js "457173"; js "4571736000000000"; js "12"; js "28"]
  /\ server post_request = Ret not_found.
Proof. split; vm_compute; reflexivity. Qed.

(** C6 (amended): a GET request is processed as a card query exactly when
    its path splits into five non-empty segments whose first is
    "cardinfo"; every other request is answered with 404 and the fixed
    usage hint, which has neither metadata nor request. *)
Theorem card_query_route (E : env) (t : nat) (req : IncomingMessage) :
  let matches :=
    method req = js "GET"
    /\ exists b c m y,
         path_segments (pathname req) = [js "cardinfo"; b; c; m; y] in
  (matches <-> exists r, content (fst (run E (server req) t)) = ResponseBody r)
  /\ (~ matches -> run E (server req) t = (not_found, []))
  /\ code not_found = 404
  /\ exists hint example,
       content not_found = UsageHint (js "error") hint example.
Proof.
  intros matches; subst matches.
  rewrite <- (is_card_query_iff req).
  destruct (is_card_query req) eqn:Hq.
  - apply is_card_query_iff in Hq; destruct Hq as [Hm (b & c & m & y & Hp)].
    split; [|split; [intros H; exfalso; apply H; reflexivity|]].
    + split; [intros _|reflexivity].
      rewrite (server_card_query req b c m y Hm Hp).
      destruct (card_query_shape E t b c m y) as (r & Hr & _).
      exists r; exact Hr.
    + split; [reflexivity | do 2 eexists; reflexivity].
  - rewrite (run_server_not_found E t req Hq).
    split; [|split; [reflexivity|]].
    + split; [discriminate | intros (r & Hr); discriminate Hr].
    + split; [reflexivity | do 2 eexists; reflexivity].
Qed.

Lemma card_query_route_witness :
  run null_body_env (server post_request) 0 = (not_found, []).
Proof.
  apply (proj1 (proj2 (card_query_route null_body_env 0 post_request))).
  intros [Hm _]; vm_compute in Hm; discriminate Hm.
Defined.

(** C10: a request whose method is not GET is not processed as a card
    query, whatever its path: it gets the 404 usage hint of an unknown
    path, and neither the clock nor the upstream service is called. *)
Theorem other_method_not_found (req : IncomingMessage) :
  method req <> js "GET" ->
  server req = Ret not_found
  /\ forall (E : env) (t : nat), run E (server req) t = (not_found, []).
Proof.
  intros Hm.
  assert (Hq : is_card_query req = false).
  { unfold is_card_query; rewrite (jsstring_eqb_neq _ _ Hm); reflexivity. }
  split; [exact (server_not_found req Hq)|].
  intros E t; exact (run_server_not_found E t req Hq).
Qed.

Lemma other_method_not_found_witness :
  path_segments (pathname post_request)
  = [js "cardinfo"; js "457173"; js "4571736000000000"; js "12"; js "28"]
  /\ server post_request = Ret not_found.
Proof.
  split; [vm_compute; reflexivity|].
  apply (other_method_not_found post_request).
  intros H; vm_compute in H; discriminate H.
Defined.

(** ** The assembled card_info *)

Lemma lookup_absent (k : jsstring) (ps : list (jsstring * value)) :
  has_key k ps = false -> lookup k ps = VUndefined.
Proof.
  induction ps as [|[k' x] ps IH]; [reflexivity|].
  cbn [has_key lookup]; intros H; apply orb_false_iff in H.
  destruct H as [-> H]; exact (IH H).
Qed.

(** A property that is not [undefined] is written, under its name. *)
Lemma at_path_written (k : jsstring) (rest : list jsstring)
    (ps : list (jsstring * value)) :
  lookup k ps <> VUndefined ->
  at_path (k :: rest) (written (VObj ps))
  = at_path rest (written (lookup k ps)).
Proof.
  induction ps as [|[k' x] ps IH]; cbn [lookup]; [contradiction|].
  destruct (jsstring_eqb k k') eqn:Ek; intros H.
  - destruct x; try contradiction;
      cbn [written at_path has_key lookup]; rewrite Ek; reflexivity.
  - specialize (IH H); cbn [written at_path] in IH.
    destruct x; cbn [written at_path has_key lookup];
      rewrite ?Ek; exact IH.
Qed.

(** A property that is [undefined] is left out; the names of an object
    literal are distinct, so the first entry decides. *)
Lemma at_path_omitted (k : jsstring) (rest : list jsstring)
    (ps : list (jsstring * value)) :
  at_path (k :: rest) (written (VObj ((k, VUndefined) :: ps)))
  = at_path (k :: rest) (written (VObj ps)).
Proof. reflexivity. Qed.

Lemma guarded_value_absent (ps : list (jsstring * value))
    (parent child : string) :
  has_key (js parent) ps = false ->
  guarded_value (VObj ps) parent child = NA.
Proof.
  intros H; unfold guarded_value, prop; cbn [get].
  rewrite (lookup_absent _ _ H); reflexivity.
Qed.

Ltac read_written :=
  unfold written_card_info;
  rewrite card_info_of_normal by reflexivity;
  unfold card_info_value.

Ltac descend :=
  repeat (rewrite at_path_written by (vm_compute; discriminate));
  vm_compute; reflexivity.

Lemma top_level_default (ps : list (jsstring * value)) (k : string) :
  In k ["scheme"; "brand"; "type"]%string ->
  has_key (js k) ps = false ->
  written_card_info (VObj ps) [k] = Some NA.
Proof.
  intros Hk Ha; read_written; unfold prop; cbn [get].
  destruct Hk as [<-|[<-|[<-|[]]]]; rewrite (lookup_absent _ _ Ha);
    cbn [map]; descend.
Qed.

(** C7, as stated, fails on two inputs.  With upstream data whose country
    object names nothing, the object literal is built without an exception
    and every field of [country] is [undefined], so the written response
    leaves them out: its [country] holds only empty [coordinates].  With
    upstream data that has no [prepaid], the field is "Não", the value
    also given for [prepaid: false], not the "N/A" of an unavailable
    field. *)
Lemma card_info_fields_omitted :
  card_info_of empty_country = Normal (card_info_value empty_country)
  /\ written_card_info empty_country ["country"; "name"]%string = None
  /\ written_card_info empty_country ["country"]%string
     = Some (VObj [(js "coordinates", VObj [])])
  /\ written_card_info (VObj []) ["prepaid"]%string = Some Nao
  /\ written_card_info (VObj [(js "prepaid", VBool false)]) ["prepaid"]%string
     = Some Nao
  /\ Nao <> NA.
Proof. repeat split; vm_compute; try reflexivity; discriminate. Qed.

(** C7 (amended): in the 200 response, for an upstream object, [scheme],
    [brand] and [type] are "N/A" when absent from it; [prepaid] is "Não"
    when absent; both fields of [number_details] are "N/A" when [number] is
    absent; every field of [country], its coordinates included, is "N/A"
    when [country] is absent; every field of [bank] is "N/A" when [bank] is
    absent.  None of these fields is left out of the response. *)
Theorem card_info_defaults (ps : list (jsstring * value)) :
  card_info_of (VObj ps) = Normal (card_info_value (VObj ps))
  /\ (forall k, In k ["scheme"; "brand"; "type"]%string ->
        has_key (js k) ps = false ->
        written_card_info (VObj ps) [k]%string = Some NA)
  /\ (has_key (js "prepaid") ps = false ->
        written_card_info (VObj ps) ["prepaid"]%string = Some Nao)
  /\ (has_key (js "number") ps = false ->
        forall k, In k ["length"; "luhn_check_status"]%string ->
        written_card_info (VObj ps) ["number_details"; k]%string = Some NA)
  /\ (has_key (js "country") ps = false ->
        (forall k,
           In k ["name"; "alpha2"; "numeric"; "currency"; "emoji"]%string ->
           written_card_info (VObj ps) ["country"; k]%string = Some NA)
        /\ forall k, In k ["latitude"; "longitude"]%string ->
           written_card_info (VObj ps) ["country"; "coordinates"; k]%string
           = Some NA)
  /\ (has_key (js "bank") ps = false ->
        forall k, In k ["name"; "url"; "phone_sac"; "city"]%string ->
        written_card_info (VObj ps) ["bank"; k]%string = Some NA).
Proof.
  split; [apply card_info_of_normal; reflexivity|].
  split; [exact (top_level_default ps)|].
  split; [|split; [|split]].
  - intros Ha; read_written; unfold prop; cbn [get].
    rewrite (lookup_absent _ _ Ha); cbn [map]; descend.
  - intros Ha k Hk; read_written.
    rewrite !(guarded_value_absent ps "number" _ Ha).
    unfold prop; cbn [get]; rewrite (lookup_absent _ _ Ha).
    cbn [truthy map].
    destruct Hk as [<-|[<-|[]]]; descend.
  - intros Ha; read_written.
    rewrite !(guarded_value_absent ps "country" _ Ha).
    split; intros k Hk; cbn [map].
    + destruct Hk as [<-|[<-|[<-|[<-|[<-|[]]]]]]; descend.
    + destruct Hk as [<-|[<-|[]]]; descend.
  - intros Ha k Hk; read_written.
    rewrite !(guarded_value_absent ps "bank" _ Ha); cbn [map].
    destruct Hk as [<-|[<-|[<-|[<-|[]]]]]; descend.
Qed.

Lemma card_info_defaults_witness :
  written_card_info (VObj [(js "scheme", VStr (js "visa"))])
    ["country"; "coordinates"; "latitude"]%string = Some NA.
Proof.
  refine (proj2 (proj1 (proj2 (proj2 (proj2 (proj2
            (card_info_defaults [(js "scheme", VStr (js "visa"))])))))
            _) "latitude"%string _).
  - vm_compute; reflexivity.
  - left; reflexivity.
Defined.

(** ** The documented exchanges *)

(** The 200 response of the README. *)
Example readme_success :
  fst (run known_bin_env (server get_request) 0)
  = {| code := 200;
       content := ResponseBody
         {| metadata := API_METADATA;
            request := {| bin := js "457173";
                          cardNumber := js "4571736000000000";
                          expiryMonth := js "12";
                          expiryYear := js "28" |};
            validation := {| luhn_valid := Some true;
                             expiry_valid := Some true |};
            card_info := VObj [
              (js "scheme", VStr (js "visa"));
              (js "brand", VStr (js "Visa Classic/Dankort"));
              (js "type", VStr (js "debit"));
              (js "prepaid", VStr (js "Não"));
              (js "number_details", VObj [
                 (js "length", of_nat 16);
                 (js "luhn_check_status", VStr (js "Sim"))]);
              (js "country", VObj [
                 (js "name", VStr (js "Denmark"));
                 (js "alpha2", VStr (js "DK"));
                 (js "numeric", VStr (js "208"));
                 (js "currency", VStr (js "DKK"));
                 (js "emoji", VStr (js "🇩🇰"));
                 (js "coordinates", VObj [
                    (js "latitude", of_nat 56);
                    (js "longitude", of_nat 10)])]);
              (js "bank", VObj [
                 (js "name", VStr (js "Jyske Bank A/S"));
                 (js "url", VStr (js "www.jyskebank.dk"));
                 (js "phone_sac", VStr (js "+4589893300"));
                 (js "city", VStr (js "Hjørring"))])];
            status := js "success";
            message := js "Validação e consulta concluídas com sucesso."
         |} |}.
Proof. vm_compute; reflexivity. Qed.

(** The 400 response of the README: no request leaves the server. *)
Example readme_bad_request :
  run known_bin_env (server bad_number_request) 0
  = ({| code := 400;
        content := ResponseBody
          {| metadata := API_METADATA;
             request := {| bin := js "457173";
                           cardNumber := js "4571736000000001";
                           expiryMonth := js "12";
                           expiryYear := js "28" |};
             validation := {| luhn_valid := Some false;
                              expiry_valid := Some true |};
             card_info := VNull;
             status := js "error";
             message :=
               js "Falha na validação estrutural do número do cartão (Algoritmo de Luhn)."
          |} |},
     [EvNewDate; EvNewDate]).
Proof. vm_compute; reflexivity. Qed.

(** An unknown BIN: the 404 of the upstream service is passed on. *)
Example unknown_bin_response :
  fst (run unknown_bin_env (server get_request) 0)
  = {| code := 404;
       content := ResponseBody
         (set_message
            (validated (js "457173") (js "4571736000000000")
               (js "12") (js "28") true true)
            (js "BIN não encontrado na base de dados.")) |}.
Proof. vm_compute; reflexivity. Qed.

(** An unknown path. *)
Example unknown_route_response :
  run known_bin_env
    (server {| method := js "GET"; pathname := js "/foo" |}) 0
  = (not_found, []).
Proof. vm_compute; reflexivity. Qed.

(** A surrogate pair among the code units of a literal. *)
Example js_surrogates : js "🇩" = [55356; 56809]%N.
Proof. vm_compute; reflexivity. Qed.

(** Expired, out of range and unparsable dates, read in November 2026. *)
Example expiry_examples :
  isExpiryValid_at 2026 11 (js "13") (js "28") = false
  /\ isExpiryValid_at 2025 6 (js "01") (js "20") = false
  /\ isExpiryValid_at 2026 11 (js "10") (js "2026") = false
  /\ isExpiryValid_at 2026 11 (js "11") (js "2026") = true
  /\ isExpiryValid_at 2026 11 (js "1") (js "27") = true
  /\ isExpiryValid_at 2026 11 (js "xx") (js "28") = false
  /\ isExpiryValid_at 2026 11 (js "12") (js "") = false.
Proof. repeat split; vm_compute; reflexivity. Qed.

(* ================================================================== *)
(** * Further properties of the validators *)

(** ** What the checksum detects *)

Lemma weighted_sum_app (second : bool) (l1 l2 : list Z) :
  weighted_sum second (l1 ++ l2)
  = weighted_sum second l1
    + weighted_sum (if Nat.even (List.length l1) then second
                    else negb second) l2.
Proof.
  revert second; induction l1 as [|d l1 IH]; intros second.
  - cbn [app weighted_sum List.length Nat.even]; lia.
  - cbn [app weighted_sum List.length]; rewrite IH.
    rewrite Nat.even_succ, <- Nat.negb_even.
    destruct (Nat.even (List.length l1)); cbn [negb];
      rewrite ?negb_involutive; lia.
Qed.

(** The weight a digit gets from the number of digits to its right. *)
Lemma mod10_sum_middle (a b : jsstring) (mid : list code_unit) :
  mod10_sum (a ++ mid ++ b)
  = weighted_sum false (rev (map digit_value b))
    + weighted_sum (negb (Nat.even (List.length b)))
        (rev (map digit_value mid) ++ rev (map digit_value a)).
Proof.
  unfold mod10_sum.
  rewrite !map_app, !rev_app_distr, <- app_assoc, weighted_sum_app.
  rewrite length_rev, length_map.
  destruct (Nat.even (List.length b)); reflexivity.
Qed.

Lemma digit_string_app (a b : jsstring) :
  digit_string (a ++ b) <-> digit_string a /\ digit_string b.
Proof. unfold digit_string; rewrite forallb_app, andb_true_iff; tauto. Qed.

Lemma digit_string_cons (c : code_unit) (s : jsstring) :
  digit_string (c :: s) <-> is_digit c = true /\ digit_string s.
Proof. unfold digit_string; cbn [forallb]; rewrite andb_true_iff; tauto. Qed.

Lemma digit_value_inj (c c' : code_unit) :
  digit_value c = digit_value c' -> c = c'.
Proof. unfold digit_value; lia. Qed.

Lemma doubled_range (d : Z) : 0 <= d <= 9 -> 0 <= doubled d <= 9.
Proof. unfold doubled; intros H; destruct (Z.ltb_spec 9 (2 * d)); lia. Qed.

Lemma doubled_inj (d d' : Z) :
  0 <= d <= 9 -> 0 <= d' <= 9 -> doubled d = doubled d' -> d = d'.
Proof.
  unfold doubled; intros H H'.
  destruct (Z.ltb_spec 9 (2 * d)); destruct (Z.ltb_spec 9 (2 * d')); lia.
Qed.

Lemma app_cons_not_nil {A} (a b : list A) (x : A) : a ++ x :: b <> [].
Proof. destruct a; discriminate. Qed.

(** Two sums that differ by less than 10 are not both multiples of 10. *)
Lemma not_both_multiples (s s' : Z) :
  s <> s' -> -10 < s - s' < 10 ->
  (s mod 10 =? 0) = true -> (s' mod 10 =? 0) = false.
Proof.
  intros Hne Hr H; apply Z.eqb_eq in H; apply Z.eqb_neq; intros H'.
  Z.div_mod_to_equations; lia.
Qed.

(** X1: a valid number with one digit replaced by another digit is
    invalid. *)
Theorem luhnCheck_detects_wrong_digit (a b : jsstring) (c c' : code_unit) :
  digit_string (a ++ c :: b) ->
  is_digit c' = true ->
  c <> c' ->
  luhnCheck (a ++ c :: b) = true ->
  luhnCheck (a ++ c' :: b) = false.
Proof.
  intros Hd Hc' Hne.
  apply digit_string_app in Hd; destruct Hd as [Ha Hcb].
  apply digit_string_cons in Hcb; destruct Hcb as [Hc Hb].
  rewrite !luhnCheck_digits;
    try apply app_cons_not_nil;
    try (apply digit_string_app; split;
         [exact Ha | apply digit_string_cons; split; assumption]).
  change (c :: b) with ([c] ++ b); change (c' :: b) with ([c'] ++ b).
  rewrite !mod10_sum_middle; cbn [map rev app weighted_sum].
  pose proof (digit_value_range c Hc) as Rc.
  pose proof (digit_value_range c' Hc') as Rc'.
  assert (Hv : digit_value c <> digit_value c')
    by (intros E; apply Hne, digit_value_inj, E).
  pose proof (doubled_range _ Rc) as Dc.
  pose proof (doubled_range _ Rc') as Dc'.
  assert (Hdv : doubled (digit_value c) <> doubled (digit_value c'))
    by (intros E; apply Hv; apply doubled_inj; assumption).
  apply not_both_multiples;
    destruct (negb (Nat.even (List.length b))); lia.
Qed.

Lemma luhnCheck_detects_wrong_digit_witness :
  luhnCheck (js "4571736000000100") = false.
Proof.
  apply (luhnCheck_detects_wrong_digit (js "4571736000000") (js "00")
           48%N 49%N).
  - vm_compute; reflexivity.
  - vm_compute; reflexivity.
  - discriminate.
  - vm_compute; reflexivity.
Defined.

(** X2: a valid number with two neighbouring digits exchanged is invalid,
    unless the two digits are equal or are 0 and 9. *)
Theorem luhnCheck_detects_transposition (a b : jsstring) (x y : code_unit) :
  digit_string (a ++ x :: y :: b) ->
  x <> y ->
  ~ (x = 48%N /\ y = 57%N) ->
  ~ (x = 57%N /\ y = 48%N) ->
  luhnCheck (a ++ x :: y :: b) = true ->
  luhnCheck (a ++ y :: x :: b) = false.
Proof.
  intros Hd Hne H09 H90.
  apply digit_string_app in Hd; destruct Hd as [Ha Hxyb].
  apply digit_string_cons in Hxyb; destruct Hxyb as [Hx Hyb].
  apply digit_string_cons in Hyb; destruct Hyb as [Hy Hb].
  rewrite !luhnCheck_digits;
    try apply app_cons_not_nil;
    try (apply digit_string_app; split;
         [exact Ha | repeat (apply digit_string_cons; split; try assumption)]).
  change (x :: y :: b) with ([x; y] ++ b).
  change (y :: x :: b) with ([y; x] ++ b).
  rewrite !mod10_sum_middle; cbn [map rev app weighted_sum].
  pose proof (digit_value_range x Hx) as Rx.
  pose proof (digit_value_range y Hy) as Ry.
  apply not_both_multiples;
    destruct (negb (Nat.even (List.length b))); cbn [negb];
    unfold doubled;
    destruct (Z.ltb_spec 9 (2 * digit_value x));
    destruct (Z.ltb_spec 9 (2 * digit_value y));
    unfold digit_value in *; lia.
Qed.

Lemma luhnCheck_detects_transposition_witness :
  luhnCheck (js "4751736000000000") = false.
Proof.
  apply (luhnCheck_detects_transposition (js "4") (js "1736000000000")
           53%N 55%N).
  - vm_compute; reflexivity.
  - discriminate.
  - intros [H _]; discriminate H.
  - intros [H _]; discriminate H.
  - vm_compute; reflexivity.
Defined.

(** The exception is real: 0 and 9 exchanged go unnoticed. *)
Example luhnCheck_misses_09_90 :
  luhnCheck (js "4571736000000901") = true
  /\ luhnCheck (js "4571736000009001") = true.
Proof. split; vm_compute; reflexivity. Qed.

(** X3: every run of digits, the empty one included, has exactly one check
    digit: one digit that appended to it makes a valid number. *)
Theorem luhnCheck_check_digit (P : jsstring) :
  digit_string P ->
  exists d : code_unit,
    is_digit d = true
    /\ luhnCheck (P ++ [d]) = true
    /\ forall d', is_digit d' = true ->
                  luhnCheck (P ++ [d']) = true -> d' = d.
Proof.
  intros HP.
  set (W := weighted_sum true (rev (map digit_value P))).
  assert (Hsum : forall d, mod10_sum (P ++ [d]) = digit_value d + W).
  { intros d; unfold mod10_sum.
    rewrite map_app, rev_app_distr; reflexivity. }
  assert (Hluhn : forall d, is_digit d = true ->
            luhnCheck (P ++ [d]) = ((digit_value d + W) mod 10 =? 0)).
  { intros d Hd; rewrite luhnCheck_digits, Hsum;
      [reflexivity | apply app_cons_not_nil |].
    apply digit_string_app; split; [exact HP|].
    apply digit_string_cons; split; [exact Hd | reflexivity]. }
  exists (Z.to_N (48 + (- W) mod 10)).
  assert (Hr : 0 <= (- W) mod 10 < 10) by (apply Z.mod_pos_bound; lia).
  assert (Hd : is_digit (Z.to_N (48 + (- W) mod 10)) = true)
    by (apply is_digit_range; lia).
  assert (Hv : digit_value (Z.to_N (48 + (- W) mod 10)) = (- W) mod 10)
    by (unfold digit_value; lia).
  split; [exact Hd|]; split.
  - rewrite (Hluhn _ Hd), Hv; apply Z.eqb_eq.
    Z.div_mod_to_equations; lia.
  - intros d' Hd' H; rewrite (Hluhn _ Hd') in H; apply Z.eqb_eq in H.
    apply digit_value_inj; rewrite Hv.
    pose proof (digit_value_range d' Hd').
    Z.div_mod_to_equations; lia.
Qed.

Lemma luhnCheck_check_digit_witness :
  exists d : code_unit,
    is_digit d = true
    /\ luhnCheck (js "457173600000000" ++ [d]) = true
    /\ forall d', is_digit d' = true ->
                  luhnCheck (js "457173600000000" ++ [d']) = true -> d' = d.
Proof.
  apply (luhnCheck_check_digit (js "457173600000000")).
  vm_compute; reflexivity.
Defined.

(** X4: white space and hyphens may stand anywhere in the number: putting
    one in, or taking one out, does not change the verdict. *)
Theorem luhnCheck_separator_anywhere (a b : jsstring) (c : code_unit) :
  is_whitespace c = true \/ c = hyphen ->
  luhnCheck (a ++ c :: b) = luhnCheck (a ++ b).
Proof.
  intros Hc; unfold luhnCheck, strip_separators.
  rewrite !filter_app; cbn [filter].
  assert (Hs : negb (is_whitespace c || (c =? hyphen)%N) = false).
  { destruct Hc as [Hw|Hh]; [rewrite Hw; reflexivity|].
    subst c; rewrite orb_true_r; reflexivity. }
  rewrite Hs; reflexivity.
Qed.

Lemma luhnCheck_separator_anywhere_witness :
  luhnCheck (js "4571-7360" ++ 32%N :: js "0000-0000")
  = luhnCheck (js "4571-7360" ++ js "0000-0000").
Proof.
  apply (luhnCheck_separator_anywhere (js "4571-7360") (js "0000-0000") 32%N).
  left; vm_compute; reflexivity.
Defined.

(** X5: zeros in front do not change the verdict on a number that has a
    character left after stripping. *)
Theorem luhnCheck_leading_zero (s : jsstring) :
  strip_separators s <> [] ->
  luhnCheck (48%N :: s) = luhnCheck s.
Proof.
  intros Hne; rewrite !luhnCheck_checksum_rule.
  unfold checksum_rule; fold (strip_separators (48%N :: s));
    fold (strip_separators s).
  change (strip_separators (48%N :: s)) with (48%N :: strip_separators s).
  destruct (strip_separators s) as [|c t] eqn:Es; [contradiction|].
  cbn [existsb is_digit negb orb].
  change (negb (is_digit 48%N)) with false; cbn [orb].
  destruct (existsb (fun c0 => negb (is_digit c0)) (c :: t)) eqn:Ex.
  - cbn [existsb] in Ex; rewrite Ex; reflexivity.
  - cbn [existsb] in Ex; rewrite Ex.
    change (48%N :: c :: t) with ([] ++ [48%N] ++ (c :: t)).
    rewrite mod10_sum_middle; cbn [map rev app weighted_sum].
    replace (mod10_sum (c :: t))
      with (weighted_sum false (rev (map digit_value (c :: t))))
      by reflexivity.
    f_equal; f_equal.
    change (digit_value 48%N) with 0; change (doubled 0) with 0.
    destruct (negb (Nat.even (List.length (c :: t)))); cbn [map rev]; lia.
Qed.

Lemma luhnCheck_leading_zero_witness :
  luhnCheck (48%N :: js "4571736000000000") = luhnCheck (js "4571736000000000").
Proof.
  apply (luhnCheck_leading_zero (js "4571736000000000")).
  vm_compute; discriminate.
Defined.

(** ** The expiry check over time and over its input *)



(** X7: a two-digit year YY is judged as the four-digit year 20YY. *)
Theorem isExpiryValid_at_two_digit_year (currentYear currentMonth : Z)
    (month : jsstring) (a b : code_unit) :
  is_digit a = true -> is_digit b = true ->
  isExpiryValid_at currentYear currentMonth month [a; b]
  = isExpiryValid_at currentYear currentMonth month [50; 48; a; b]%N.
Proof.
  intros Ha Hb; unfold isExpiryValid_at.
  assert (H2 : digit_string [a; b])
    by (unfold digit_string; cbn [forallb]; rewrite Ha, Hb; reflexivity).
  assert (H4 : digit_string [50; 48; a; b]%N)
    by (unfold digit_string; cbn [forallb]; rewrite Ha, Hb; reflexivity).
  rewrite (parseInt_digits [a; b]) by (discriminate || exact H2).
  rewrite (parseInt_digits [50; 48; a; b]%N) by (discriminate || exact H4).
  cbn [List.length Nat.eqb num_add].
  replace (digits_value [50; 48; a; b]%N) with (2000 + digits_value [a; b]);
    [reflexivity|].
  unfold digits_value; cbn [fold_left].
  change (digit_value 50%N) with 2; change (digit_value 48%N) with 0; lia.
Qed.

Lemma isExpiryValid_at_two_digit_year_witness :
  isExpiryValid_at 2026 11 (js "12") (js "28")
  = isExpiryValid_at 2026 11 (js "12") (js "2028").
Proof.
  apply (isExpiryValid_at_two_digit_year 2026 11 (js "12") 50%N 56%N);
    vm_compute; reflexivity.
Defined.

(** What [parseInt] reads of a run of digits followed by something else. *)
Lemma parseInt_digits_then (ds rest : jsstring) (c : code_unit) :
  ds <> [] -> digit_string ds -> is_digit c = false ->
  parseInt (ds ++ c :: rest) = parseInt ds.
Proof.
  intros Hne Hd Hc; rewrite (parseInt_digits ds Hne Hd); unfold parseInt.
  destruct ds as [|d ds]; [contradiction|].
  apply digit_string_cons in Hd; destruct Hd as [Hd0 Hd].
  cbn [app dropWhile]; rewrite (digit_not_whitespace d Hd0),
    (digit_not_hyphen d Hd0), (digit_not_plus d Hd0).
  assert (Ht : takeWhile is_digit ((d :: ds) ++ c :: rest) = d :: ds).
  { cbn [app takeWhile]; rewrite Hd0; f_equal; clear Hne.
    induction ds as [|e ds IH]; cbn [app takeWhile].
    - rewrite Hc; reflexivity.
    - apply digit_string_cons in Hd; destruct Hd as [He Hd].
      rewrite He, (IH Hd); reflexivity. }
  cbn [app] in Ht; rewrite Ht; f_equal; apply Z.mul_1_l.
Qed.

(** X8: the month is read as far as its digits go: whatever follows the
    digits is ignored. *)
Theorem isExpiryValid_at_month_prefix (currentYear currentMonth : Z)
    (digits rest year : jsstring) (c : code_unit) :
  digits <> [] -> digit_string digits -> is_digit c = false ->
  isExpiryValid_at currentYear currentMonth (digits ++ c :: rest) year
  = isExpiryValid_at currentYear currentMonth digits year.
Proof.
  intros Hne Hd Hc; unfold isExpiryValid_at.
  rewrite (parseInt_digits_then digits rest c Hne Hd Hc); reflexivity.
Qed.

Lemma isExpiryValid_at_month_prefix_witness :
  isExpiryValid_at 2026 11 (js "12abc") (js "28")
  = isExpiryValid_at 2026 11 (js "12") (js "28").
Proof.
  apply (isExpiryValid_at_month_prefix 2026 11 (js "12") (js "bc")
           (js "28") 97%N).
  - discriminate.
  - vm_compute; reflexivity.
  - vm_compute; reflexivity.
Defined.

(** X9: the year and the month come from two reads of the clock.  When the
    first falls in December and the second in January, a date of any month
    up to November of the old year is accepted, though it is expired at
    the first read and at the second. *)
Theorem isExpiryValid_new_year (E : env) (t : nat) (month year : jsstring)
    (m Y : Z) :
  clock E t = {| getFullYear := Y; getMonth := 11 |} ->
  clock E (S t) = {| getFullYear := Y + 1; getMonth := 0 |} ->
  parseInt month = Some m -> 1 <= m <= 11 ->
  resolved_year year = Some Y ->
  fst (run E (isExpiryValid month year) t) = true
  /\ isExpiryValid_at Y 12 month year = false
  /\ isExpiryValid_at (Y + 1) 1 month year = false.
Proof.
  intros H1 H2 Hm Hr Hy; rewrite run_isExpiryValid, H1, H2.
  cbn [fst getFullYear getMonth Z.add].
  destruct (isExpiryValid_at_cases Y 1 month year) as [_ Hyes].
  destruct (isExpiryValid_at_cases Y 12 month year) as [Hno1 _].
  destruct (isExpiryValid_at_cases (Y + 1) 1 month year) as [Hno2 _].
  split; [|split].
  - apply (Hyes m Y Hm); [lia | exact Hy | left; lia].
  - apply Hno1; do 4 right; exists m, Y; repeat split; auto; lia.
  - apply Hno2; do 3 right; left; exists Y; split; [exact Hy | lia].
Qed.

Lemma isExpiryValid_new_year_witness :
  fst (run new_year_env (isExpiryValid (js "11") (js "26")) 0) = true
  /\ isExpiryValid_at 2026 12 (js "11") (js "26") = false
  /\ isExpiryValid_at (2026 + 1) 1 (js "11") (js "26") = false.
Proof.
  apply (isExpiryValid_new_year new_year_env 0 (js "11") (js "26") 11 2026).
  - reflexivity.
  - reflexivity.
  - vm_compute; reflexivity.
  - lia.
  - vm_compute; reflexivity.
Defined.

(* ================================================================== *)
(** * Further properties of the lookup client and of the handler *)

Opaque js.

(** ** lookupBin *)


Transparent js.


Opaque js.

(** ** The handler, case by case *)

(** Splits a card query on what the validators and the environment
    answer, and rewrites the run to its result in each case. *)
Ltac query_cases E t b c m y :=
  let Hl := fresh "Hluhn" in
  let He := fresh "Hexpiry" in
  let Hn := fresh "Hnet" in
  let Hp := fresh "Hparse" in
  let Hv := fresh "Hnull" in
  let H200 := fresh "H200" in
  let H404 := fresh "H404" in
  destruct (luhnCheck c) eqn:Hl;
    [ destruct (expiry_at E t m y) eqn:He;
      [ destruct (network E binlist_host (js "/" ++ b))
          as [?statusCode ?data|?msg] eqn:Hn;
        [ match goal with
          | _ : network E _ _ = UpstreamResponse ?sc ?d |- _ =>
              destruct (Z.eq_dec sc 200) as [H200|H200];
              [ subst sc;
                destruct (JSON_parse E d) as [?v|?msg] eqn:Hp;
                [ match goal with
                  | _ : JSON_parse E d = Parsed ?w |- _ =>
                      destruct (nullish w) eqn:Hv;
                      [ rewrite (run_resolved_null E t b c m y Hl He d w
                                   Hn Hp Hv)
                      | rewrite (run_resolved E t b c m y Hl He d w
                                   Hn Hp Hv) ]
                  end
                | match goal with
                  | _ : JSON_parse E d = SyntaxError ?ms |- _ =>
                      rewrite (run_parse_error E t b c m y Hl He d ms Hn Hp)
                  end ]
              | destruct (Z.eq_dec sc 404) as [H404|H404];
                [ subst sc; rewrite (run_upstream_404 E t b c m y Hl He d Hn)
                | rewrite (run_upstream_other E t b c m y Hl He sc d Hn
                             H200 H404) ] ]
          end
        | match goal with
          | _ : network E _ _ = UpstreamFailure ?ms |- _ =>
              rewrite (run_transport_failure E t b c m y Hl He ms Hn)
          end ]
      | rewrite (run_bad_expiry E t b c m y Hl He) ]
    | rewrite (run_bad_luhn E t b c m y Hl) ].


(** X12: a card query sends one request upstream when both validations
    pass and none otherwise; the request goes to the BIN service and its
    path is the [bin] segment as it came, whatever the card number is. *)
Theorem server_outbound_requests (E : env) (t : nat) (req : IncomingMessage)
    (b c m y : jsstring) :
  method req = js "GET" ->
  path_segments (pathname req) = [js "cardinfo"; b; c; m; y] ->
  outbound (snd (run E (server req) t))
  = if luhnCheck c && expiry_at E t m y
    then [EvHttpsRequest (js "lookup.binlist.net") (js "/" ++ b)]
    else [].
Proof.
  intros Hm Hp; rewrite (server_card_query req b c m y Hm Hp).
  fold binlist_host; fold (lookup_event b).
  query_cases E t b c m y; reflexivity.
Qed.

Transparent js.

Lemma server_outbound_requests_witness :
  outbound (snd (run unknown_bin_env (server get_request) 0))
  = [EvHttpsRequest (js "lookup.binlist.net") (js "/457173")].
Proof.
  refine (server_outbound_requests unknown_bin_env 0 get_request
            (js "457173") (js "4571736000000000") (js "12") (js "28") _ _).
  - vm_compute; reflexivity.
  - vm_compute; reflexivity.
Defined.

Opaque js.

(** X13: in a response to a card query [card_info] is an object exactly
    when the status is 200, and null otherwise; a 400 and a 404 say
    "error" in their [status] field, a 200 says "success". *)
Theorem card_info_only_with_200 (E : env) (t : nat) (req : IncomingMessage)
    (b c m y : jsstring) :
  method req = js "GET" ->
  path_segments (pathname req) = [js "cardinfo"; b; c; m; y] ->
  exists r,
    content (fst (run E (server req) t)) = ResponseBody r
    /\ (code (fst (run E (server req) t)) = 200 ->
        (exists properties, card_info r = VObj properties)
        /\ status r = js "success")
    /\ (code (fst (run E (server req) t)) <> 200 -> card_info r = VNull)
    /\ (code (fst (run E (server req) t)) = 400
        \/ code (fst (run E (server req) t)) = 404 ->
        status r = js "error").
Proof.
  intros Hm Hp; rewrite (server_card_query req b c m y Hm Hp).
  query_cases E t b c m y; cbn [fst code content];
    eexists; (split; [reflexivity|]);
    cbn [card_info status set_message set_status set_card_info
         validated looked_up card_info_value];
    (split; [|split]); intros Hcode;
    try discriminate Hcode;
    try (split; [eexists; reflexivity | reflexivity]);
    try reflexivity;
    try (exfalso; apply Hcode; reflexivity);
    destruct Hcode as [Hcode|Hcode]; discriminate Hcode.
Qed.

Transparent js.

Lemma card_info_only_with_200_witness :
  exists r,
    content (fst (run unknown_bin_env (server get_request) 0))
    = ResponseBody r
    /\ card_info r = VNull.
Proof.
  destruct (card_info_only_with_200 unknown_bin_env 0 get_request
              (js "457173") (js "4571736000000000") (js "12") (js "28"))
    as (r & Hr & _ & Hnull & _).
  - vm_compute; reflexivity.
  - vm_compute; reflexivity.
  - exists r; split; [exact Hr|].
    apply Hnull; vm_compute; discriminate.
Defined.

Opaque js.

(** X14: the handler writes to the error console exactly when a lookup
    was made and did not end in a 200: once for a 404 or a 500, never for a
    200 or a 400. *)
Theorem server_logs_failed_lookups (E : env) (t : nat)
    (req : IncomingMessage) (b c m y : jsstring) :
  method req = js "GET" ->
  path_segments (pathname req) = [js "cardinfo"; b; c; m; y] ->
  List.length (filter is_console_error (snd (run E (server req) t)))
  = if (code (fst (run E (server req) t)) =? 404)
       || (code (fst (run E (server req) t)) =? 500)
    then 1%nat else 0%nat.
Proof.
  intros Hm Hp; rewrite (server_card_query req b c m y Hm Hp).
  query_cases E t b c m y; reflexivity.
Qed.

Transparent js.

Lemma server_logs_failed_lookups_witness :
  List.length (filter is_console_error
                 (snd (run unreachable_env (server get_request) 0)))
  = 1%nat.
Proof.
  refine (server_logs_failed_lookups unreachable_env 0 get_request
            (js "457173") (js "4571736000000000") (js "12") (js "28") _ _).
  - vm_compute; reflexivity.
  - vm_compute; reflexivity.
Defined.

Opaque js.

(** X15: when the lookup of a valid card query is rejected, the response
    has the status of the rejection, 500 when it has none, the message is
    the error text of the rejection, [card_info] is null and [status] is
    "error". *)
Theorem server_passes_rejection_on (E : env) (t : nat)
    (req : IncomingMessage) (b c m y : jsstring) (e : rejection) :
  method req = js "GET" ->
  path_segments (pathname req) = [js "cardinfo"; b; c; m; y] ->
  luhnCheck c = true ->
  expiry_at E t m y = true ->
  fst (run E (lookupBin b) (S (S t))) = Rejected e ->
  fst (run E (server req) t)
  = {| code := match e_status e with Some s => s | None => 500 end;
       content := ResponseBody
         {| metadata := API_METADATA;
            request := {| bin := b; cardNumber := c;
                          expiryMonth := m; expiryYear := y |};
            validation := {| luhn_valid := Some true;
                             expiry_valid := Some true |};
            card_info := VNull;
            status := js "error";
            message := error e |} |}.
Proof.
  intros Hm Hp Hl He; rewrite (server_card_query req b c m y Hm Hp).
  unfold lookupBin; fold binlist_host; cbn [run fst snd].
  destruct (network E binlist_host (js "/" ++ b)) as [statusCode data|msg]
    eqn:Hn.
  - destruct (Z.eq_dec statusCode 200) as [->|H200].
    + cbn [Z.eqb Pos.eqb run fst snd].
      destruct (JSON_parse E data) as [v|msg] eqn:Hparse;
        cbn [run fst snd]; intros Hr; [discriminate Hr|].
      injection Hr as <-.
      rewrite (run_parse_error E t b c m y Hl He data msg Hn Hparse).
      reflexivity.
    + destruct (Z.eq_dec statusCode 404) as [->|H404].
      * cbn [Z.eqb Pos.eqb run fst snd]; intros Hr; injection Hr as <-.
        rewrite (run_upstream_404 E t b c m y Hl He data Hn); reflexivity.
      * rewrite (proj2 (Z.eqb_neq _ _) H200), (proj2 (Z.eqb_neq _ _) H404).
        cbn [run fst snd]; intros Hr; injection Hr as <-.
        rewrite (run_upstream_other E t b c m y Hl He statusCode data Hn
                   H200 H404).
        reflexivity.
  - cbn [run fst snd]; intros Hr; injection Hr as <-.
    rewrite (run_transport_failure E t b c m y Hl He msg Hn); reflexivity.
Qed.

Transparent js.

Lemma server_passes_rejection_on_witness :
  code (fst (run unreachable_env (server get_request) 0)) = 500.
Proof.
  rewrite (server_passes_rejection_on unreachable_env 0 get_request
             (js "457173") (js "4571736000000000") (js "12") (js "28")
             {| error := js "Erro na requisição HTTP para a BIN List";
                e_status := None;
                details := Some (js "connect ECONNREFUSED") |}).
  - reflexivity.
  - vm_compute; reflexivity.
  - vm_compute; reflexivity.
  - vm_compute; reflexivity.
  - vm_compute; reflexivity.
  - vm_compute; reflexivity.
Defined.

Transparent js.

(** ** Routing *)

Lemma split_app_separator (sep : code_unit) (a b : jsstring) :
  split sep (a ++ sep :: b) = split sep a ++ split sep b.
Proof.
  induction a as [|c a IH]; cbn [app split].
  - rewrite N.eqb_refl; reflexivity.
  - destruct (c =? sep)%N; [rewrite IH; reflexivity|].
    rewrite IH; pose proof (split_not_nil sep a) as Hn.
    destruct (split sep a) as [|seg segs]; [contradiction | reflexivity].
Qed.

Lemma path_segments_app_slash (a b : jsstring) :
  path_segments (a ++ slash :: b) = path_segments a ++ path_segments b.
Proof.
  unfold path_segments; rewrite split_app_separator; apply filter_app.
Qed.



(** X16: a slash cuts a path in two: the segments of the whole are the
    segments of what stands before it followed by those of what stands
    after it.  So a slash at either end, or a second slash next to one,
    adds no segment. *)
Theorem path_segments_slash (a b : jsstring) :
  path_segments (a ++ slash :: b) = path_segments a ++ path_segments b
  /\ path_segments (slash :: a) = path_segments a
  /\ path_segments (a ++ [slash]) = path_segments a
  /\ path_segments (a ++ slash :: slash :: b)
     = path_segments (a ++ slash :: b).
Proof.
  split; [apply path_segments_app_slash|]; split; [reflexivity|]; split.
  - rewrite path_segments_app_slash; apply app_nil_r.
  - rewrite !path_segments_app_slash; reflexivity.
Qed.





(** X18: of the two validation messages the checksum's comes first: a
    number that fails the checksum is answered with the checksum message
    whatever the expiry check says, and the expiry message is given only
    to a number that passes. *)
Theorem validation_failure_message (E : env) (t : nat)
    (req : IncomingMessage) (b c m y : jsstring) :
  method req = js "GET" ->
  path_segments (pathname req) = [js "cardinfo"; b; c; m; y] ->
  luhnCheck c = false \/ expiry_at E t m y = false ->
  exists r,
    content (fst (run E (server req) t)) = ResponseBody r
    /\ status r = js "error"
    /\ message r
       = if luhnCheck c
         then js "Falha na validação da data de expiração (cartão expirado ou data inválida)."
         else js "Falha na validação estrutural do número do cartão (Algoritmo de Luhn).".
Proof.
  intros Hm Hp Hbad; rewrite (server_card_query req b c m y Hm Hp).
  destruct (luhnCheck c) eqn:Hl.
  - destruct Hbad as [Hbad|Hbad]; [discriminate Hbad|].
    rewrite (run_bad_expiry E t b c m y Hl Hbad).
    eexists; repeat split.
  - rewrite (run_bad_luhn E t b c m y Hl).
    eexists; repeat split.
Qed.

Lemma validation_failure_message_witness :
  exists r,
    content (fst (run known_bin_env
                    (server {| method := js "GET";
                               pathname := js "/cardinfo/457173/1234/13/20" |})
                    0))
    = ResponseBody r
    /\ message r
       = js "Falha na validação estrutural do número do cartão (Algoritmo de Luhn).".
Proof.
  destruct (validation_failure_message known_bin_env 0
              {| method := js "GET";
                 pathname := js "/cardinfo/457173/1234/13/20" |}
              (js "457173") (js "1234") (js "13") (js "20"))
    as (r & Hr & _ & Hmsg).
  - vm_compute; reflexivity.
  - vm_compute; reflexivity.
  - left; vm_compute; reflexivity.
  - exists r; split; [exact Hr | rewrite Hmsg; vm_compute; reflexivity].
Defined.

(** ** The fields of card_info *)

Lemma or_else_defined (v : value) : or_else v NA <> VUndefined.
Proof.
  unfold or_else; destruct (truthy v) eqn:T; [|discriminate].
  intros ->; discriminate T.
Qed.

Lemma guarded_value_falsy (ps : list (jsstring * value))
    (parent child : string) :
  truthy (lookup (js parent) ps) = false ->
  guarded_value (VObj ps) parent child = NA.
Proof.
  intros H; unfold guarded_value, prop; cbn [get]; rewrite H; reflexivity.
Qed.

(** One step down a path of written data, past a property that is shown
    to be defined. *)
Ltac step_in :=
  rewrite at_path_written by (vm_compute; first [assumption | discriminate]);
  try match goal with
      | |- context [written (lookup ?k ?l)] =>
          let r := eval vm_compute in (lookup k l) in
          change (lookup k l) with r
      end.

(** X19: whatever the upstream data is, short of [null], the response
    shows all seven fields of [card_info]: scheme, brand, type, prepaid,
    number_details, country and bank are never left out, nor are the
    coordinates of the country; [prepaid] is "Sim" or "Não" and the Luhn
    status of the number is "Sim", "Não" or "N/A". *)
Theorem card_info_fields_present (binData : value) :
  nullish binData = false ->
  (forall k,
      In k ["scheme"; "brand"; "type"; "prepaid"; "number_details";
            "country"; "bank"]%string ->
      written_card_info binData [k] <> None)
  /\ written_card_info binData ["country"; "coordinates"]%string <> None
  /\ (written_card_info binData ["prepaid"]%string = Some Sim
      \/ written_card_info binData ["prepaid"]%string = Some Nao)
  /\ (written_card_info binData
        ["number_details"; "luhn_check_status"]%string = Some Sim
      \/ written_card_info binData
           ["number_details"; "luhn_check_status"]%string = Some Nao
      \/ written_card_info binData
           ["number_details"; "luhn_check_status"]%string = Some NA).
Proof.
  intros Hn; unfold written_card_info.
  rewrite (card_info_of_normal binData Hn); unfold card_info_value.
  pose proof (or_else_defined (prop binData (js "scheme"))) as D1.
  pose proof (or_else_defined (prop binData (js "brand"))) as D2.
  pose proof (or_else_defined (prop binData (js "type"))) as D3.
  set (scheme := or_else (prop binData (js "scheme")) NA) in *.
  set (brand := or_else (prop binData (js "brand")) NA) in *.
  set (type := or_else (prop binData (js "type")) NA) in *.
  clearbody scheme brand type.
  repeat match goal with
         | |- context [guarded_value ?a ?b ?c] =>
             generalize (guarded_value a b c); intro
         end.
  destruct (is_true (prop binData (js "prepaid")));
    destruct (truthy (prop binData (js "number")));
    try destruct (truthy (prop (prop binData (js "number")) (js "luhn"))).
  all: split;
    [ intros k Hk;
      destruct Hk as [<-|[<-|[<-|[<-|[<-|[<-|[<-|[]]]]]]]]; cbn [map];
      step_in; cbn [at_path]; discriminate
    | split;
      [ cbn [map]; do 2 step_in; cbn [at_path]; discriminate
      | split;
        [ cbn [map]; step_in; cbn [at_path];
          first [left; reflexivity | right; reflexivity]
        | cbn [map]; do 2 step_in; cbn [at_path];
          first [ left; reflexivity
                | right; left; reflexivity
                | right; right; reflexivity ] ] ] ].
Qed.

Lemma card_info_fields_present_witness :
  written_card_info (VStr (js "not an object")) ["bank"]%string <> None.
Proof.
  apply (proj1 (card_info_fields_present (VStr (js "not an object"))
                  eq_refl)).
  do 6 right; left; reflexivity.
Defined.

(** X20: a value that JavaScript takes for false stands for a missing one:
    a scheme, brand or type that is null, false, 0 or the empty string is
    reported as "N/A", and so is every field of a number, country or bank
    that is null (or any other such value) instead of an object. *)
Theorem falsy_values_default (ps : list (jsstring * value)) :
  (forall k, In k ["scheme"; "brand"; "type"]%string ->
     truthy (lookup (js k) ps) = false ->
     written_card_info (VObj ps) [k] = Some NA)
  /\ (truthy (lookup (js "number") ps) = false ->
      forall k, In k ["length"; "luhn_check_status"]%string ->
      written_card_info (VObj ps) ["number_details"; k]%string = Some NA)
  /\ (truthy (lookup (js "country") ps) = false ->
      (forall k,
         In k ["name"; "alpha2"; "numeric"; "currency"; "emoji"]%string ->
         written_card_info (VObj ps) ["country"; k]%string = Some NA)
      /\ forall k, In k ["latitude"; "longitude"]%string ->
         written_card_info (VObj ps) ["country"; "coordinates"; k]%string
         = Some NA)
  /\ (truthy (lookup (js "bank") ps) = false ->
      forall k, In k ["name"; "url"; "phone_sac"; "city"]%string ->
      written_card_info (VObj ps) ["bank"; k]%string = Some NA).
Proof.
  split; [|split; [|split]].
  - intros k Hk Hf; read_written; unfold prop, or_else; cbn [get].
    destruct Hk as [<-|[<-|[<-|[]]]]; rewrite Hf; cbn [map]; descend.
  - intros Hf k Hk; read_written.
    rewrite !(guarded_value_falsy ps "number" _ Hf).
    unfold prop; cbn [get]; rewrite Hf; cbn [map].
    destruct Hk as [<-|[<-|[]]]; descend.
  - intros Hf; read_written.
    rewrite !(guarded_value_falsy ps "country" _ Hf).
    split; intros k Hk; cbn [map].
    + destruct Hk as [<-|[<-|[<-|[<-|[<-|[]]]]]]; descend.
    + destruct Hk as [<-|[<-|[]]]; descend.
  - intros Hf k Hk; read_written.
    rewrite !(guarded_value_falsy ps "bank" _ Hf); cbn [map].
    destruct Hk as [<-|[<-|[<-|[<-|[]]]]]; descend.
Qed.

Lemma falsy_values_default_witness :
  written_card_info
    (VObj [(js "scheme", VStr []); (js "bank", VNull)]) ["bank"; "url"]%string
  = Some NA.
Proof.
  refine (proj2 (proj2 (proj2 (falsy_values_default
            [(js "scheme", VStr []); (js "bank", VNull)]))) _
            "url"%string _).
  - vm_compute; reflexivity.
  - right; left; reflexivity.
Defined.

(** X21: the fields of an upstream country or bank object are passed on
    as they are written: each country field under its own name, latitude
    and longitude under [coordinates], each bank field under its own name
    except [phone], which is shown as [phone_sac]. *)
Theorem nested_fields_pass_through (ps : list (jsstring * value)) :
  (forall cs, lookup (js "country") ps = VObj cs ->
     (forall k,
        In k ["name"; "alpha2"; "numeric"; "currency"; "emoji"]%string ->
        lookup (js k) cs <> VUndefined ->
        written_card_info (VObj ps) ["country"; k]%string
        = Some (written (lookup (js k) cs)))
     /\ (forall k, In k ["latitude"; "longitude"]%string ->
         lookup (js k) cs <> VUndefined ->
         written_card_info (VObj ps) ["country"; "coordinates"; k]%string
         = Some (written (lookup (js k) cs))))
  /\ (forall bs, lookup (js "bank") ps = VObj bs ->
      (forall k, In k ["name"; "url"; "city"]%string ->
         lookup (js k) bs <> VUndefined ->
         written_card_info (VObj ps) ["bank"; k]%string
         = Some (written (lookup (js k) bs)))
      /\ (lookup (js "phone") bs <> VUndefined ->
          written_card_info (VObj ps) ["bank"; "phone_sac"]%string
          = Some (written (lookup (js "phone") bs)))).
Proof.
  split.
  - intros cs Hc; split; intros k Hk Hv; read_written;
      unfold guarded_value, prop; cbn [get]; rewrite Hc; cbn [truthy get].
    + destruct Hk as [<-|[<-|[<-|[<-|[<-|[]]]]]];
        match type of Hv with
        | lookup ?key cs <> _ => remember (lookup key cs) as v eqn:Ev
        end;
        repeat match goal with
               | |- context [lookup ?key cs] =>
                   generalize (lookup key cs); intro
               end;
        cbn [map]; do 2 step_in; reflexivity.
    + destruct Hk as [<-|[<-|[]]];
        match type of Hv with
        | lookup ?key cs <> _ => remember (lookup key cs) as v eqn:Ev
        end;
        repeat match goal with
               | |- context [lookup ?key cs] =>
                   generalize (lookup key cs); intro
               end;
        cbn [map]; do 3 step_in; reflexivity.
  - intros bs Hb; split; [intros k Hk Hv | intros Hv]; read_written;
      unfold guarded_value, prop; cbn [get]; rewrite Hb; cbn [truthy get].
    + destruct Hk as [<-|[<-|[<-|[]]]];
        match type of Hv with
        | lookup ?key bs <> _ => remember (lookup key bs) as v eqn:Ev
        end;
        repeat match goal with
               | |- context [lookup ?key bs] =>
                   generalize (lookup key bs); intro
               end;
        cbn [map]; do 2 step_in; reflexivity.
    + remember (lookup (js "phone") bs) as v eqn:Ev.
      repeat match goal with
             | |- context [lookup ?key bs] =>
                 generalize (lookup key bs); intro
             end.
      cbn [map]; do 2 step_in; reflexivity.
Qed.

Lemma nested_fields_pass_through_witness :
  written_card_info jyske_bank ["bank"; "phone_sac"]%string
  = Some (VStr (js "+4589893300")).
Proof.
  unfold jyske_bank.
  match goal with
  | |- written_card_info (VObj ?ps) _ = _ =>
      assert (Hb : lookup (js "bank") ps
                   = VObj [(js "name", VStr (js "Jyske Bank A/S"));
                           (js "url", VStr (js "www.jyskebank.dk"));
                           (js "phone", VStr (js "+4589893300"));
                           (js "city", VStr (js "Hjørring"))])
        by (vm_compute; reflexivity);
      destruct (proj2 (nested_fields_pass_through ps) _ Hb) as [_ Hphone]
  end.
  rewrite Hphone; [vm_compute; reflexivity | vm_compute; discriminate].
Defined.

(** ** The reach of a two-character year *)

(** X22: a year of two characters is never resolved beyond 2099: from the
    year 2100 on every date with such a year is rejected. *)
Theorem two_character_year_ends_2099 (currentYear currentMonth : Z)
    (month : jsstring) (a b : code_unit) :
  2099 < currentYear ->
  isExpiryValid_at currentYear currentMonth month [a; b] = false.
Proof.
  intros Hcy.
  apply (proj1 (isExpiryValid_at_cases currentYear currentMonth month [a; b])).
  unfold resolved_year; cbn [List.length Nat.eqb].
  destruct (is_digit a && is_digit b) eqn:Hd.
  - apply andb_true_iff in Hd; destruct Hd as [Ha Hb].
    assert (Hds : digit_string [a; b])
      by (unfold digit_string; cbn [forallb]; rewrite Ha, Hb; reflexivity).
    rewrite (parseInt_digits [a; b]) by (discriminate || exact Hds).
    do 3 right; left; eexists; split; [reflexivity|].
    pose proof (digit_value_range a Ha); pose proof (digit_value_range b Hb).
    unfold digits_value; cbn [fold_left]; lia.
  - pose proof (parseInt_two_characters a b Hd) as Hr.
    destruct (parseInt [a; b]) as [y|]; [|right; left; reflexivity].
    do 3 right; left; eexists; split; [reflexivity | lia].
Qed.

Lemma two_character_year_ends_2099_witness :
  isExpiryValid_at 2100 1 (js "12") (js "99") = false.
Proof.
  apply (two_character_year_ends_2099 2100 1 (js "12") 57%N 57%N); lia.
Defined.
